(** * openmtp: the buffer classifier ([processMtpBuffer], [processLocalBuffer])
      and its sanitizer ([sanitizeErrors])

    A shallow embedding of the error-normalisation functions of
    [src/app/containers/HelpFaqsPage/styles/HelpPhoneNotRecognized.js]
    (the segment that imports [replaceBulk], [log] and [EOL]).

    Modelling choices.
    - A JavaScript string is a Rocq [string]; case mapping and white space
      are those of the ASCII range, every other character is left alone by
      [toLowerCase] / [toUpperCase] and is not white space.
    - A field of the input is [null], a string, or an [Error] object, which
      is represented by what its [toString()] method does: it returns a
      string or it throws.
    - The classifiers run in a small monad that carries the exception a
      JavaScript expression may throw and the trace of what the call did:
      the calls of [log.doLog] and the invocations of [checkError].

    The development also covers [deleteFiles] of
    [FileExplorerLocalDataSource] (same file), with [rimraf] and the file
    system as parameters, and the reducer [Settings] of
    [src/app/containers/Settings/reducers.js], with the imported action
    types and enum members as parameters. *)

From Stdlib Require Import String Ascii List Bool ZArith NArith Lia.
From Stdlib Require Import DecimalString.
Import ListNotations.

Local Open Scope string_scope.
Local Open Scope bool_scope.

(* ================================================================= *)
(** ** JavaScript strings *)

Module JsString.

Definition is_upper (c : ascii) : bool :=
  let n := N_of_ascii c in (65 <=? n)%N && (n <=? 90)%N.

Definition is_lower (c : ascii) : bool :=
  let n := N_of_ascii c in (97 <=? n)%N && (n <=? 122)%N.

Definition lower_char (c : ascii) : ascii :=
  if is_upper c then ascii_of_N (N_of_ascii c + 32) else c.

Definition upper_char (c : ascii) : ascii :=
  if is_lower c then ascii_of_N (N_of_ascii c - 32) else c.

(** The white space [String.prototype.trim] removes: TAB, LF, VT, FF, CR
    and the space. *)
Definition is_space (c : ascii) : bool :=
  let n := N_of_ascii c in ((9 <=? n)%N && (n <=? 13)%N) || (n =? 32)%N.

Fixpoint toLowerCase (s : string) : string :=
  match s with
  | EmptyString => EmptyString
  | String c r => String (lower_char c) (toLowerCase r)
  end.

Fixpoint toUpperCase (s : string) : string :=
  match s with
  | EmptyString => EmptyString
  | String c r => String (upper_char c) (toUpperCase r)
  end.

(** [startsWith p s]: [p] is a prefix of [s]. *)
Fixpoint startsWith (p s : string) : bool :=
  match p, s with
  | EmptyString, _ => true
  | String _ _, EmptyString => false
  | String a p', String b s' => Ascii.eqb a b && startsWith p' s'
  end.

Fixpoint indexOf_from (i : Z) (s pat : string) : Z :=
  if startsWith pat s then i
  else match s with
       | EmptyString => (-1)%Z
       | String _ r => indexOf_from (i + 1) r pat
       end.

(** [s.indexOf(pat)]: the first position of [pat] in [s], or [-1]. *)
Definition indexOf (s pat : string) : Z := indexOf_from 0 s pat.

Fixpoint trimStart (s : string) : string :=
  match s with
  | EmptyString => EmptyString
  | String c r => if is_space c then trimStart r else s
  end.

Fixpoint trimEnd (s : string) : string :=
  match s with
  | EmptyString => EmptyString
  | String c r =>
      match trimEnd r with
      | EmptyString => if is_space c then EmptyString else String c EmptyString
      | r' => String c r'
      end
  end.

Definition trim (s : string) : string := trimEnd (trimStart s).

(** [s.charAt(0)]: the first character as a string, or the empty string. *)
Definition charAt0 (s : string) : string :=
  match s with
  | EmptyString => EmptyString
  | String c _ => String c EmptyString
  end.

(** [s.slice(1)]. *)
Definition slice1 (s : string) : string :=
  match s with
  | EmptyString => EmptyString
  | String _ r => r
  end.

Fixpoint drop (n : nat) (s : string) : string :=
  match n, s with
  | O, _ => s
  | S _, EmptyString => EmptyString
  | S k, String _ r => drop k r
  end.

(** [s.replace(/^(p)/, '')] for a literal [p]: the prefix [p] is removed
    when [s] starts with it. *)
Definition stripPrefix (p s : string) : string :=
  if startsWith p s then drop (String.length p) s else s.

(** A string is truthy when it is not empty. *)
Definition truthy (s : string) : bool :=
  match s with EmptyString => false | String _ _ => true end.

End JsString.
Import JsString.

(* ================================================================= *)
(** ** Completions, events and the monad of a call *)

Inductive exn : Type :=
| TypeError                      (* a property read on [undefined] *)
| Raised (what : string).        (* whatever a [toString()] threw *)

Inductive completion (A : Type) : Type :=
| Normal (a : A)
| Throw (e : exn).
Arguments Normal {A} a.
Arguments Throw {A} e.

Inductive event : Type :=
| DoLog (message : string) (loud : option bool)   (* [log.doLog(message, loud)] *)
| Checked (errorTplKey : string).                 (* [checkError(errorTplKey)] *)

Definition M (A : Type) : Type := (list event * completion A)%type.

Definition ret {A} (a : A) : M A := ([], Normal a).
Definition throw {A} (e : exn) : M A := ([], Throw e).
Definition emit (e : event) : M unit := ([e], Normal tt).

Definition bind {A B} (m : M A) (k : A -> M B) : M B :=
  match m with
  | (t, Normal a) => let (t', r) := k a in ((t ++ t')%list, r)
  | (t, Throw e) => (t, Throw e)
  end.

Declare Scope js_scope.
Delimit Scope js_scope with js.
Notation "x <- m ;; k" := (bind m (fun x => k))
  (at level 61, m at next level, right associativity) : js_scope.
Notation "m ;;; k" := (bind m (fun _ => k))
  (at level 61, right associativity) : js_scope.
Local Open Scope js_scope.

(** [a || b] on two effectful operands: [b] runs only when [a] is false. *)
Definition orElse (a b : M bool) : M bool :=
  x <- a ;; if x then ret true else b.

Definition trace {A} (m : M A) : list event := fst m.
Definition outcome {A} (m : M A) : completion A := snd m.

(* ================================================================= *)
(** ** The data model *)

(** A field of the raw result. *)
Inductive field : Type :=
| Null
| Str (s : string)
| ErrorObj (toString : completion string).

Module RawResult.
Record t : Type := mk { error : field; stderr : field }.
End RawResult.

(** The object a classifier returns; [status = None] is an object without
    the [status] property. *)
Module Result.
Record t : Type := mk {
  error : option string;
  throwAlert : bool;
  logError : bool;
  status : option bool
}.
End Result.

(** An object literal read through a computed key. *)
Definition table : Type := list (string * string).

Fixpoint get (o : table) (key : string) : option string :=
  match o with
  | [] => None
  | (k, v) :: rest => if String.eqb k key then Some v else get rest key
  end.

(** [(v !== null && v.toString()) || ''] *)
Definition stringified (v : field) : M string :=
  match v with
  | Null => ret EmptyString
  | Str s => ret s
  | ErrorObj (Normal s) => ret s
  | ErrorObj (Throw e) => throw e
  end.

(** [text.toLowerCase().indexOf(pat.toLowerCase()) !== -1] *)
Definition includes_ci (text pat : string) : bool :=
  negb (indexOf (toLowerCase text) (toLowerCase pat) =? -1)%Z.

Definition matches (stderrStringified errorStringified pat : string) : bool :=
  includes_ci stderrStringified pat || includes_ci errorStringified pat.

(** The closure [checkError] of both classifiers.  [errorTpl[errorTplKey]]
    is [undefined] for a key the literal does not have, and calling
    [toLowerCase] on it throws a [TypeError]. *)
Definition checkError (errorTpl : table)
    (stderrStringified errorStringified errorTplKey : string) : M bool :=
  emit (Checked errorTplKey) ;;;
  match get errorTpl errorTplKey with
  | None => throw TypeError
  | Some pat => ret (matches stderrStringified errorStringified pat)
  end.

(* ================================================================= *)
(** ** The sanitizer *)

(** The first entry of [findArray] that matches at the head of [s], with
    its replacement. *)
Fixpoint firstMatch (findArray replaceArray : list string) (s : string)
  : option (string * string) :=
  match findArray, replaceArray with
  | f :: fs, r :: rs =>
      if truthy f && startsWith f s then Some (f, r) else firstMatch fs rs s
  | _, _ => None
  end.

Fixpoint replaceBulk_go (skip : nat) (s : string)
    (findArray replaceArray : list string) : string :=
  match s with
  | EmptyString => EmptyString
  | String c r =>
      match skip with
      | S k => replaceBulk_go k r findArray replaceArray
      | O =>
          match firstMatch findArray replaceArray s with
          | Some (f, w) =>
              w ++ replaceBulk_go (String.length f - 1) r findArray replaceArray
          | None => String c (replaceBulk_go 0 r findArray replaceArray)
          end
      end
  end.

(** Modelled from the spec: [replaceBulk] is imported from [./funcs], which
    is not among the sources.  The spec (4.3) says of the call
    [replaceBulk(string, ['error:', 'stat failed:'], ['', ''])] that it
    removes all occurrences, not anchored, of the literal substrings
    anywhere in the string.  The model walks the string once from left to
    right and replaces each occurrence of an entry of [findArray] it meets
    by the entry of [replaceArray] at the same index. *)
Definition replaceBulk (str : string) (findArray replaceArray : list string)
  : string :=
  replaceBulk_go 0 str findArray replaceArray.

Definition sanitizeErrors (string : option String.string) : String.string :=
  match string with
  | None => "Oops.. Try again"
  | Some string =>
      let string := trim (stripPrefix "error: " string) in
      let string := trim (replaceBulk string ["error:"; "stat failed:"] [EmptyString; EmptyString]) in
      toUpperCase (charAt0 string) ++ slice1 string
  end.

(* ================================================================= *)
(** ** The two classifiers *)

Module Mtp.

Definition errorTpl : table :=
  [ ("noMtp", "No MTP device found");
    ("invalidObjectHandle", "invalid response code InvalidObjectHandle");
    ("invalidStorageID", "invalid response code InvalidStorageID");
    ("fileNotFound", "could not find");
    ("noFilesSelected", "No files selected");
    ("invalidPath", "Invalid path");
    ("noSuchFiles", "No such file or directory");
    ("writePipe", "WritePipe");
    ("mtpStorageNotAccessible1", "MTP storage not accessible");
    ("mtpStorageNotAccessible2", "error: storage");
    ("partialDeletion", "PartialDeletion") ].

Module errorDictionary.
Definition noMtp := "No MTP device found.".
Definition common := "Oops.. Your MTP device has gone crazy! Try again.".
Definition unResponsive :=
  "MTP device is not responding. Reload or reconnect device.".
Definition mtpStorageNotAccessible := "MTP storage not accessible.".
Definition fileNotFound := "File not found! Try again.".
Definition partialDeletion := "The path is inaccessible.".
End errorDictionary.

End Mtp.

Module Local.

Definition errorTpl : table :=
  [ ("noPerm1", "Operation not permitted");
    ("noPerm2", "Permission denied");
    ("commandFailed", "Command failed");
    ("noSuchFiles", "No such file or directory") ].

Module errorDictionary.
Definition noPerm := "Operation not permitted.".
Definition commandFailed := "Could not complete! Try again.".
Definition common := "Oops.. Your device has gone crazy! Try again.".
Definition unResponsive := "Device is not responding! Reload".
Definition invalidPath := "Invalid path".
Definition fileNotFound := "File not found! Try again.".
End errorDictionary.

End Local.

(** [a || b] on two strings. *)
Definition orString (a b : string) : string := if truthy a then a else b.

Section Classifiers.

(** [os.EOL], the line separator of the platform. *)
Variable EOL : string.

Definition processMtpBuffer (input : RawResult.t) : M Result.t :=
  errorStringified <- stringified (RawResult.error input) ;;
  stderrStringified <- stringified (RawResult.stderr input) ;;
  if negb (truthy errorStringified) && negb (truthy stderrStringified) then
    ret (Result.mk None false true (Some true))
  else
    let checkError := checkError Mtp.errorTpl stderrStringified errorStringified in
    noMtpError <- checkError "noMtp" ;;
    emit (DoLog ("MTP buffer o/p logging;" ++ EOL
                 ++ "error: " ++ trim errorStringified ++ EOL
                 ++ "stderr: " ++ trim stderrStringified)
                (Some (negb noMtpError))) ;;;
    if noMtpError then
      ret (Result.mk (Some Mtp.errorDictionary.noMtp) false false (Some false))
    else
    c <- checkError "invalidObjectHandle" ;;
    if c then
      ret (Result.mk (Some Mtp.errorDictionary.unResponsive) true true (Some false))
    else
    c <- checkError "invalidStorageID" ;;
    if c then
      ret (Result.mk (Some Mtp.errorDictionary.unResponsive) true true (Some false))
    else
    c <- checkError "writePipe" ;;
    if c then
      ret (Result.mk (Some Mtp.errorDictionary.unResponsive) true true (Some false))
    else
    c <- orElse (checkError "mtpStorageNotAccessible1")
                (checkError "mtpStorageNotAccessible2") ;;
    if c then
      ret (Result.mk (Some Mtp.errorDictionary.mtpStorageNotAccessible)
                     true true (Some false))
    else
    c <- checkError "fileNotFound" ;;
    if c then
      ret (Result.mk
             (Some (sanitizeErrors
                      (Some (orString stderrStringified errorStringified))))
             true true (Some true))
    else
    c <- checkError "noSuchFiles" ;;
    if c then
      ret (Result.mk (Some Mtp.errorDictionary.fileNotFound) true true (Some true))
    else
    c <- orElse (checkError "noFilesSelected") (checkError "invalidPath") ;;
    if c then
      ret (Result.mk
             (Some (sanitizeErrors
                      (Some (orString stderrStringified errorStringified))))
             true true (Some true))
    else
    c <- checkError "partialDeletion" ;;
    if c then
      ret (Result.mk (Some Mtp.errorDictionary.partialDeletion)
                     true true (Some true))
    else
      ret (Result.mk (Some Mtp.errorDictionary.common) true true (Some true)).

Definition processLocalBuffer (input : RawResult.t) : M Result.t :=
  errorStringified <- stringified (RawResult.error input) ;;
  stderrStringified <- stringified (RawResult.stderr input) ;;
  if negb (truthy errorStringified) && negb (truthy stderrStringified) then
    ret (Result.mk None false true None)
  else
    let checkError := checkError Local.errorTpl stderrStringified errorStringified in
    emit (DoLog ("Local buffer o/p logging;" ++ EOL
                 ++ "error: " ++ trim errorStringified ++ EOL
                 ++ "stderr: " ++ trim stderrStringified)
                None) ;;;
    c <- orElse (checkError "noPerm1") (checkError "noPerm2") ;;
    if c then
      ret (Result.mk (Some Local.errorDictionary.noPerm) true true None)
    else
    c <- checkError "commandFailed" ;;
    if c then
      ret (Result.mk (Some Local.errorDictionary.commandFailed) true true None)
    else
    c <- checkError "noSuchFiles" ;;
    if c then
      ret (Result.mk (Some Local.errorDictionary.fileNotFound)
                     true true (Some true))
    else
    c <- checkError "invalidPath" ;;
    if c then
      ret (Result.mk (Some errorStringified) true true None)
    else
      ret (Result.mk (Some Local.errorDictionary.common) true true None).

End Classifiers.

(** The POSIX line separator, for closed instances. *)
Definition LF : string := String (ascii_of_nat 10) EmptyString.

(* ================================================================= *)
(** ** Containment, as the claims speak of it *)

(** [pat] occurs in [s] as it stands. *)
Definition occurs (pat s : string) : Prop :=
  exists pre suf, s = pre ++ pat ++ suf.

(** [text] contains [pat] in any case: a stretch of [text] equals [pat]
    once both are lower-cased. *)
Definition contains_ci (text pat : string) : Prop :=
  exists pre mid suf,
    text = pre ++ mid ++ suf /\ toLowerCase mid = toLowerCase pat.

(** The field [v] has the text [s]: its coercion returns [s] ([null] has the
    text of the empty string). *)
Definition coerces_to (v : field) (s : string) : Prop :=
  stringified v = ret s.

(** A field is empty: it is [null], the empty string, or an [Error] whose
    [toString()] is the empty string. *)
Definition is_empty (v : field) : Prop :=
  v = Null \/ v = Str EmptyString \/ v = ErrorObj (Normal EmptyString).

(** [stderr] or [error] contains [pat], in any case. *)
Definition mentions (stderrStringified errorStringified pat : string) : Prop :=
  contains_ci stderrStringified pat \/ contains_ci errorStringified pat.

(** Neither field contains any of [pats]. *)
Definition none_of (stderrStringified errorStringified : string)
    (pats : list string) : Prop :=
  Forall (fun pat => ~ mentions stderrStringified errorStringified pat) pats.

(* ================================================================= *)
(** ** [FileExplorerLocalDataSource]: deleting a list of files *)

Module LocalDataSource.

(** How a call [rimraf(file, {}, callback)] ends: the callback receives an
    error ([null] when the file is gone), or [rimraf] throws while the
    promise is being set up. *)
Inductive rimrafOutcome : Type :=
| CalledBack (error : field)
| Threw (e : exn).

(** The object the promise of [_delete] resolves to. *)
Module Deleted.
Record t : Type := mk { data : option bool; stderr : field; error : field }.
End Deleted.

(** The [error] property of what [deleteFiles] returns: a value that went
    through, or the exception the [catch] block caught. *)
Inductive errorSlot : Type :=
| Value (v : field)
| Caught (e : exn).

(** The object [deleteFiles] returns; [data] is [null], [false] or [true]. *)
Module Response.
Record t : Type := mk { error : errorSlot; stderr : field; data : option bool }.
End Response.

Inductive logCall : Type :=
| LogError (e : exn)                           (* [log.error(e)] *)
| LogErrorAt (message tag : string).           (* [log.error(message, tag)] *)

(** [if (error)]: [null] and the empty string are falsy, an object is
    truthy. *)
Definition fieldTruthy (v : field) : bool :=
  match v with
  | Null => false
  | Str s => truthy s
  | ErrorObj _ => true
  end.

(** The template literal [`${error}`]. *)
Definition template (v : field) : completion string :=
  match v with
  | Null => Normal "null"
  | Str s => Normal s
  | ErrorObj r => r
  end.

Section DeleteFiles.

(** The file system, and [rimraf] acting on it. *)
Variable World : Type.
Variable rimraf : string -> World -> World * rimrafOutcome.

(** [_delete(file)]: the promise resolves with the callback's error in
    [error] and [stderr], or is rejected with what [rimraf] threw (a throw
    inside the executor of a promise rejects it; the [catch] of [_delete]
    does not see it). *)
Definition _delete (file : string) (w : World) : World * (Deleted.t + exn) :=
  match rimraf file w with
  | (w', CalledBack error) => (w', inl (Deleted.mk None error error))
  | (w', Threw e) => (w', inr e)
  end.

(** The [for] loop of [deleteFiles], from the item it has reached. *)
Fixpoint deleteFiles_from (items : list string) (w : World)
  : World * list logCall * Response.t :=
  match items with
  | [] => (w, [], Response.mk (Value Null) Null (Some true))
  | item :: rest =>
      match _delete item w with
      | (w', inl d) =>
          let error := Deleted.error d in
          if fieldTruthy error then
            match template error with
            | Normal message =>
                (w',
                 [LogErrorAt message
                    "FileExplorerLocalDataSource.deleteFiles -> rm error"],
                 Response.mk (Value error) Null (Some false))
            | Throw e =>
                (w', [LogError e], Response.mk (Caught e) Null (Some false))
            end
          else deleteFiles_from rest w'
      | (w', inr e) =>
          (w', [LogError e], Response.mk (Caught e) Null (Some false))
      end
  end.

(** [deleteFiles({ fileList })]; [fileList] is [None] when it is [null] or
    [undefined]. *)
Definition deleteFiles (fileList : option (list string)) (w : World)
  : World * list logCall * Response.t :=
  match fileList with
  | None | Some [] =>
      (w, [], Response.mk (Value (Str "No files selected.")) Null None)
  | Some items => deleteFiles_from items w
  end.

End DeleteFiles.

(** A file system for closed instances: the paths removed so far, most
    recent first; the path "/locked" cannot be removed. *)
Definition rimraf_demo (file : string) (w : list string)
  : list string * rimrafOutcome :=
  if String.eqb file "/locked"
  then (w, CalledBack (ErrorObj (Normal "Error: EPERM: operation not permitted")))
  else (file :: w, CalledBack Null).

End LocalDataSource.

(* ================================================================= *)
(** ** The settings reducer ([Settings/reducers.js]) *)

Module SettingsReducer.

(** The object [actionTypes] imported from [./actions]. *)
Record ActionTypes : Type := {
  FRESH_INSTALL : string;
  SET_ONBOARDING : string;
  TOGGLE_SETTINGS : string;
  HIDE_HIDDEN_FILES : string;
  FILE_EXPLORER_LISTING_TYPE : string;
  COMMON_SETTINGS : string;
  COPY_JSON_FILE_TO_SETTINGS : string
}.

(** The seven action types are different strings. *)
Definition distinct (t : ActionTypes) : Prop :=
  NoDup [FRESH_INSTALL t; SET_ONBOARDING t; TOGGLE_SETTINGS t;
         HIDE_HIDDEN_FILES t; FILE_EXPLORER_LISTING_TYPE t;
         COMMON_SETTINGS t; COPY_JSON_FILE_TO_SETTINGS t].

Section Reducer.

(** JavaScript numbers and their conversion to a string are left abstract. *)
Variable number : Type.
Variable numberToString : number -> string.
Variable zero : number.

(** The values a state or an action is made of: plain data.  An object is
    the list of its property definitions in the order an object literal
    lists them; a later definition of a name overrides an earlier one, and
    objects are observed through their properties only. *)
#[warnings="-register-all"] Inductive value : Type :=
| VUndefined
| VNull
| VBool (b : bool)
| VNum (n : number)
| VStr (s : string)
| VArr (items : list value)
| VObj (props : list (string * value)).

Variable actionTypes : ActionTypes.

(** The members of the enums imported from [../../enums]: the two device
    types, as the property names they give, and two setting values. *)
Variable DEVICE_TYPE_local : string.
Variable DEVICE_TYPE_mtp : string.
Variable FILE_EXPLORER_VIEW_TYPE_grid : value.
Variable APP_THEME_MODE_TYPE_auto : value.

Record action : Type := {
  type : string;
  payload : value;
  deviceType : value      (* [VUndefined] when the action has none *)
}.

(** The own property [name] of a list of definitions: the last one counts. *)
Fixpoint getOwn (props : list (string * value)) (name : string)
  : option value :=
  match props with
  | [] => None
  | (k, v) :: rest =>
      match getOwn rest name with
      | Some x => Some x
      | None => if String.eqb k name then Some v else None
      end
  end.

Definition indexName (i : nat) : string :=
  NilEmpty.string_of_uint (Nat.to_uint i).

Fixpoint indexed (i : nat) (items : list value) : list (string * value) :=
  match items with
  | [] => []
  | x :: rest => (indexName i, x) :: indexed (S i) rest
  end.

Fixpoint characters (s : string) : list value :=
  match s with
  | EmptyString => []
  | String c r => VStr (String c EmptyString) :: characters r
  end.

(** What [...v] copies into an object literal: the own enumerable
    properties of [v]. *)
Definition ownProps (v : value) : list (string * value) :=
  match v with
  | VObj props => props
  | VArr items => indexed 0 items
  | VStr s => indexed 0 (characters s)
  | _ => []
  end.

(** The own property [name] of a value, if it has one. *)
Definition own (v : value) (name : string) : option value :=
  getOwn (ownProps v) name.

(** [v.name], for the names the reducer reads ([onboarding],
    [hideHiddenFiles], [fileExplorerListingType], [key], [value]), none of
    which a built-in prototype defines: reading from [null] or [undefined]
    throws, a missing property is [undefined]. *)
Definition member (v : value) (name : string) : completion value :=
  match v with
  | VUndefined | VNull => Throw TypeError
  | VObj props =>
      Normal match getOwn props name with Some x => x | None => VUndefined end
  | _ => Normal VUndefined
  end.

Fixpoint joinWith (sep : string) (parts : list (completion string))
  : completion string :=
  match parts with
  | [] => Normal EmptyString
  | [p] => p
  | p :: rest =>
      match p with
      | Throw e => Throw e
      | Normal s =>
          match joinWith sep rest with
          | Throw e => Throw e
          | Normal t => Normal (s ++ sep ++ t)
          end
      end
  end.

(** The property name a computed key [[v]] gives.  An object without an own
    [toString] is "[object Object]"; with one (it cannot be a function
    here) the conversion throws; an array joins the names of its elements,
    [null] and [undefined] counting as empty. *)
Fixpoint toPropertyKey (v : value) : completion string :=
  match v with
  | VUndefined => Normal "undefined"
  | VNull => Normal "null"
  | VBool b => Normal (if b then "true" else "false")
  | VNum n => Normal (numberToString n)
  | VStr s => Normal s
  | VArr items =>
      joinWith ","
        (map (fun x => match x with
                       | VUndefined | VNull => Normal EmptyString
                       | _ => toPropertyKey x
                       end) items)
  | VObj props =>
      match getOwn props "toString" with
      | Some _ => Throw TypeError
      | None => Normal "[object Object]"
      end
  end.

Definition initialState : value :=
  VObj
    [ ("freshInstall", VNum zero);
      ("onboarding", VObj [("lastFiredVersion", VNull)]);
      ("toggleSettings", VBool false);
      ("enableAutoUpdateCheck", VBool true);
      ("enableBackgroundAutoUpdate", VBool true);
      ("enablePrereleaseUpdates", VBool false);
      ("enableAnalytics", VBool true);
      ("enableStatusBar", VBool true);
      ("hideHiddenFiles",
       VObj [(DEVICE_TYPE_local, VBool true); (DEVICE_TYPE_mtp, VBool true)]);
      ("fileExplorerListingType",
       VObj [(DEVICE_TYPE_local, FILE_EXPLORER_VIEW_TYPE_grid);
             (DEVICE_TYPE_mtp, FILE_EXPLORER_VIEW_TYPE_grid)]);
      ("appThemeMode", APP_THEME_MODE_TYPE_auto);
      ("showLocalPane", VBool true);
      ("showLocalPaneOnLeftSide", VBool true);
      ("showDirectoriesFirst", VBool true) ].

Definition andThen {A B} (c : completion A) (k : A -> completion B)
  : completion B :=
  match c with
  | Normal a => k a
  | Throw e => Throw e
  end.

(** The default of a parameter or of a destructured property: it replaces
    [undefined] only. *)
Definition orDefault (v default : value) : value :=
  match v with
  | VUndefined => default
  | _ => v
  end.

(** [{ ...state, [key]: v }] *)
Definition withProp (state : value) (key : string) (v : value) : value :=
  VObj (ownProps state ++ [(key, v)])%list.

Definition Settings (state : value) (action : action) : completion value :=
  let state := orDefault state initialState in
  let deviceType := orDefault (deviceType action) VNull in
  let payload := payload action in
  let type := type action in
  if String.eqb type (FRESH_INSTALL actionTypes) then
    Normal (withProp state "freshInstall" payload)
  else if String.eqb type (SET_ONBOARDING actionTypes) then
    andThen (member state "onboarding") (fun onboarding =>
    Normal (withProp state "onboarding"
              (VObj (ownProps onboarding ++ ownProps payload)%list)))
  else if String.eqb type (TOGGLE_SETTINGS actionTypes) then
    Normal (withProp state "toggleSettings" payload)
  else if String.eqb type (HIDE_HIDDEN_FILES actionTypes) then
    andThen (member state "hideHiddenFiles") (fun hideHiddenFiles =>
    andThen (toPropertyKey deviceType) (fun key =>
    Normal (withProp state "hideHiddenFiles"
              (withProp hideHiddenFiles key payload))))
  else if String.eqb type (FILE_EXPLORER_LISTING_TYPE actionTypes) then
    andThen (member state "fileExplorerListingType")
      (fun fileExplorerListingType =>
    andThen (toPropertyKey deviceType) (fun key =>
    Normal (withProp state "fileExplorerListingType"
              (withProp fileExplorerListingType key payload))))
  else if String.eqb type (COMMON_SETTINGS actionTypes) then
    andThen (member payload "key") (fun key =>
    andThen (toPropertyKey key) (fun key =>
    andThen (member payload "value") (fun v =>
    Normal (withProp state key v))))
  else if String.eqb type (COPY_JSON_FILE_TO_SETTINGS actionTypes) then
    Normal (VObj (ownProps state ++ ownProps payload)%list)
  else
    Normal state.

End Reducer.

Arguments VUndefined {number}.
Arguments VNull {number}.
Arguments VBool {number} b.
Arguments VNum {number} n.
Arguments VStr {number} s.
Arguments VArr {number} items.
Arguments VObj {number} props.
Arguments type {number} a.
Arguments payload {number} a.
Arguments deviceType {number} a.
Arguments Build_action {number} type payload deviceType.
Arguments getOwn {number} props name.
Arguments ownProps {number} v.
Arguments own {number} v name.
Arguments member {number} v name.
Arguments orDefault {number} v default.
Arguments withProp {number} state key v.

(** An instance for closed examples: the action types named after their
    keys, natural numbers for the numbers. *)
Definition demoTypes : ActionTypes :=
  {| FRESH_INSTALL := "FRESH_INSTALL";
     SET_ONBOARDING := "SET_ONBOARDING";
     TOGGLE_SETTINGS := "TOGGLE_SETTINGS";
     HIDE_HIDDEN_FILES := "HIDE_HIDDEN_FILES";
     FILE_EXPLORER_LISTING_TYPE := "FILE_EXPLORER_LISTING_TYPE";
     COMMON_SETTINGS := "COMMON_SETTINGS";
     COPY_JSON_FILE_TO_SETTINGS := "COPY_JSON_FILE_TO_SETTINGS" |}.

Definition demoSettings : value nat -> action nat -> completion (value nat) :=
  Settings nat indexName 0 demoTypes "local" "mtp" (VStr "grid") (VStr "auto").

Definition demoInitialState : value nat :=
  initialState nat 0 "local" "mtp" (VStr "grid") (VStr "auto").

End SettingsReducer.

(* ================================================================= *)
(** ** Facts about strings *)

Section StringFacts.

Lemma startsWith_iff (p s : string) :
  startsWith p s = true <-> exists suf, s = p ++ suf.
Proof.
  revert s; induction p as [|a p IH]; intros s; simpl.
  - split; [intros _; now exists s | reflexivity].
  - destruct s as [|b s].
    + split; [discriminate | intros [suf H]; discriminate].
    + rewrite andb_true_iff, Ascii.eqb_eq, IH. split.
      * intros [-> [suf ->]]. now exists suf.
      * intros [suf H]. injection H as -> ->. split; [reflexivity | now exists suf].
Qed.

Lemma indexOf_from_found (i : Z) (s pat : string) :
  (0 <= i)%Z -> indexOf_from i s pat <> (-1)%Z <-> occurs pat s.
Proof.
  revert i; induction s as [|c r IH]; intros i Hi; simpl.
  - destruct (startsWith pat EmptyString) eqn:E.
    + split; [intros _ | lia].
      apply startsWith_iff in E as [suf E]. exists EmptyString, suf. exact E.
    + split; [congruence |].
      intros [pre [suf H]]. destruct pre; [|discriminate]. simpl in H.
      assert (startsWith pat EmptyString = true) by (apply startsWith_iff; now exists suf).
      congruence.
  - destruct (startsWith pat (String c r)) eqn:E.
    + split; [intros _ | lia].
      apply startsWith_iff in E as [suf E]. exists EmptyString, suf. exact E.
    + rewrite (IH (i + 1)%Z) by lia. split.
      * intros [pre [suf ->]]. now exists (String c pre), suf.
      * intros [pre [suf H]]. destruct pre as [|x pre]; simpl in H.
        -- assert (startsWith pat (String c r) = true)
             by (apply startsWith_iff; now exists suf).
           congruence.
        -- injection H as _ ->. now exists pre, suf.
Qed.

Lemma indexOf_found (s pat : string) :
  indexOf s pat <> (-1)%Z <-> occurs pat s.
Proof. apply indexOf_from_found; lia. Qed.

Lemma toLowerCase_app (a b : string) :
  toLowerCase (a ++ b) = toLowerCase a ++ toLowerCase b.
Proof. induction a as [|c a IH]; simpl; [reflexivity | now rewrite IH]. Qed.

Lemma toLowerCase_split (t a b : string) :
  toLowerCase t = a ++ b ->
  exists x y, t = x ++ y /\ toLowerCase x = a /\ toLowerCase y = b.
Proof.
  revert t; induction a as [|c a IH]; intros t H; simpl in H.
  - exists EmptyString, t. auto.
  - destruct t as [|d t]; [discriminate |]. simpl in H.
    injection H as Hc Ht. destruct (IH _ Ht) as [x [y [-> [Hx Hy]]]].
    exists (String d x), y. simpl. now rewrite Hc, Hx, Hy.
Qed.

Lemma includes_ci_iff (text pat : string) :
  includes_ci text pat = true <-> contains_ci text pat.
Proof.
  unfold includes_ci. rewrite negb_true_iff, Z.eqb_neq, indexOf_found. split.
  - intros [pre [suf H]].
    apply toLowerCase_split in H as [x [y [-> [Hx H]]]].
    apply toLowerCase_split in H as [m [z [-> [Hm Hz]]]].
    now exists x, m, z.
  - intros [pre [mid [suf [-> H]]]].
    exists (toLowerCase pre), (toLowerCase suf).
    now rewrite !toLowerCase_app, H.
Qed.

Lemma matches_iff (stderrStringified errorStringified pat : string) :
  matches stderrStringified errorStringified pat = true <->
  contains_ci stderrStringified pat \/ contains_ci errorStringified pat.
Proof. unfold matches. now rewrite orb_true_iff, !includes_ci_iff. Qed.

Lemma contains_ci_truthy (text pat : string) :
  truthy pat = true -> contains_ci text pat -> truthy text = true.
Proof.
  intros Hp [pre [mid [suf [-> H]]]].
  destruct mid as [|c mid]; [destruct pat; discriminate |].
  destruct pre; reflexivity.
Qed.

End StringFacts.

(* ================================================================= *)
(** ** Facts about the sanitizer *)

Section SanitizerFacts.

Lemma upper_char_idem (c : ascii) : upper_char (upper_char c) = upper_char c.
Proof.
  destruct c as [b0 b1 b2 b3 b4 b5 b6 b7];
    destruct b0, b1, b2, b3, b4, b5, b6, b7; reflexivity.
Qed.

Lemma is_space_upper_char (c : ascii) : is_space (upper_char c) = is_space c.
Proof.
  destruct c as [b0 b1 b2 b3 b4 b5 b6 b7];
    destruct b0, b1, b2, b3, b4, b5, b6, b7; reflexivity.
Qed.

(** The last line of [sanitizeErrors] upper-cases the first character. *)
Lemma capitalize_eq (s : string) :
  toUpperCase (charAt0 s) ++ slice1 s =
  match s with
  | EmptyString => EmptyString
  | String c r => String (upper_char c) r
  end.
Proof. destruct s; reflexivity. Qed.

Lemma trimEnd_cons (c : ascii) (r : string) :
  is_space c = false -> trimEnd (String c r) = String c (trimEnd r).
Proof. intros H. simpl. rewrite H. now destruct (trimEnd r). Qed.

Lemma trimEnd_idem (s : string) : trimEnd (trimEnd s) = trimEnd s.
Proof.
  induction s as [|c r IH]; [reflexivity |]. simpl.
  destruct (trimEnd r) as [|d r'] eqn:E.
  - destruct (is_space c) eqn:Hc; [reflexivity |]. simpl. now rewrite Hc.
  - change (trimEnd (String c (String d r')) = String c (String d r')).
    simpl. simpl in IH. now rewrite IH.
Qed.

(** A string without white space at either end. *)
Lemma trimStart_head (s : string) :
  trimStart s = EmptyString \/
  exists c r, trimStart s = String c r /\ is_space c = false.
Proof.
  induction s as [|c r IH]; simpl; [now left |].
  destruct (is_space c) eqn:Hc; [exact IH | right; now exists c, r].
Qed.

Lemma trim_shape (s : string) :
  trim s = EmptyString \/
  exists c r, trim s = String c r /\ is_space c = false /\ trimEnd r = r.
Proof.
  unfold trim. destruct (trimStart_head s) as [-> | [c [r [-> Hc]]]].
  - now left.
  - right. rewrite (trimEnd_cons _ _ Hc). exists c, (trimEnd r).
    repeat split; [assumption | apply trimEnd_idem].
Qed.

Lemma trim_fixed (c : ascii) (r : string) :
  is_space c = false -> trimEnd r = r -> trim (String c r) = String c r.
Proof.
  intros Hc Hr. unfold trim. simpl trimStart. rewrite Hc.
  now rewrite (trimEnd_cons _ _ Hc), Hr.
Qed.

Lemma occurs_tail (pat : string) (c : ascii) (r : string) :
  occurs pat r -> occurs pat (String c r).
Proof. intros [pre [suf ->]]. now exists (String c pre), suf. Qed.

Lemma firstMatch_occurs (findArray replaceArray : list string) (s f w : string) :
  firstMatch findArray replaceArray s = Some (f, w) ->
  In f findArray /\ occurs f s.
Proof.
  revert replaceArray; induction findArray as [|g fs IH]; intros [|r rs]; simpl;
    try discriminate.
  destruct (truthy g && startsWith g s) eqn:E.
  - intros H; injection H as <- <-. apply andb_true_iff in E as [_ E].
    apply startsWith_iff in E as [suf E].
    split; [now left | now exists EmptyString, suf].
  - intros H. destruct (IH _ H) as [Hin Ho]. split; [now right | assumption].
Qed.

(** [replaceBulk] leaves alone a string in which no entry of [findArray]
    occurs. *)
Lemma replaceBulk_absent (s : string) (findArray replaceArray : list string) :
  (forall f, In f findArray -> ~ occurs f s) ->
  replaceBulk s findArray replaceArray = s.
Proof.
  unfold replaceBulk. induction s as [|c r IH]; intros H; [reflexivity |].
  cbn [replaceBulk_go].
  destruct (firstMatch findArray replaceArray (String c r)) as [[f w]|] eqn:E.
  - apply firstMatch_occurs in E as [Hin Ho]. now destruct (H f Hin).
  - rewrite IH; [reflexivity |].
    intros f Hin Ho. apply (H f Hin). now apply occurs_tail.
Qed.

Lemma stripPrefix_absent (s : string) :
  ~ occurs "error:" s -> stripPrefix "error: " s = s.
Proof.
  intros H. unfold stripPrefix.
  destruct (startsWith "error: " s) eqn:E; [| reflexivity].
  apply startsWith_iff in E as [suf ->]. destruct H.
  now exists EmptyString, (String " " suf).
Qed.

Lemma sanitizeErrors_capitalized (t : string) :
  (t = EmptyString \/
   exists c r, t = String c r /\ is_space c = false /\ trimEnd r = r) ->
  ~ occurs "error:" (toUpperCase (charAt0 t) ++ slice1 t) ->
  ~ occurs "stat failed:" (toUpperCase (charAt0 t) ++ slice1 t) ->
  sanitizeErrors (Some (toUpperCase (charAt0 t) ++ slice1 t)) =
  toUpperCase (charAt0 t) ++ slice1 t.
Proof.
  rewrite capitalize_eq. intros Ht He Hs.
  assert (Hfix : trim match t with
                      | EmptyString => EmptyString
                      | String c r => String (upper_char c) r
                      end
                 = match t with
                   | EmptyString => EmptyString
                   | String c r => String (upper_char c) r
                   end).
  { destruct Ht as [-> | [c [r [-> [Hc Hr]]]]]; [reflexivity |].
    apply trim_fixed; [now rewrite is_space_upper_char | assumption]. }
  unfold sanitizeErrors.
  rewrite (stripPrefix_absent _ He), Hfix, replaceBulk_absent, Hfix.
  - rewrite capitalize_eq. destruct t as [|c r]; [reflexivity |].
    now rewrite upper_char_idem.
  - intros f [<- | [<- | []]]; assumption.
Qed.

(** A sanitized text in which neither pattern is left is a fixed point of
    the sanitizer. *)
Lemma sanitizeErrors_fixed (x : string) :
  ~ occurs "error:" (sanitizeErrors (Some x)) ->
  ~ occurs "stat failed:" (sanitizeErrors (Some x)) ->
  sanitizeErrors (Some (sanitizeErrors (Some x))) = sanitizeErrors (Some x).
Proof.
  change (sanitizeErrors (Some x)) with
    (let t := trim (replaceBulk (trim (stripPrefix "error: " x))
                      ["error:"; "stat failed:"] [EmptyString; EmptyString]) in
     toUpperCase (charAt0 t) ++ slice1 t).
  cbv zeta. apply sanitizeErrors_capitalized, trim_shape.
Qed.

End SanitizerFacts.

Arguments matches : simpl never.
Arguments sanitizeErrors : simpl never.
Arguments trim : simpl never.
Arguments String.append : simpl never.

(* ================================================================= *)
(** ** What a call of a classifier does *)

Ltac split_on_matches :=
  repeat match goal with
         | |- context [matches ?a ?b ?p] => destruct (matches a b p); cbn
         end.

Section ClassifierFacts.

Variable EOL : string.

Lemma is_empty_coerces (v : field) : is_empty v -> coerces_to v EmptyString.
Proof. intros [-> | [-> | ->]]; reflexivity. Qed.

Lemma mentions_iff (ss es pat : string) :
  mentions ss es pat <-> matches ss es pat = true.
Proof. unfold mentions. now rewrite matches_iff. Qed.

Lemma not_mentions_iff (ss es pat : string) :
  ~ mentions ss es pat <-> matches ss es pat = false.
Proof. rewrite mentions_iff. apply not_true_iff_false. Qed.

Lemma mentions_truthy (ss es pat : string) :
  truthy pat = true -> mentions ss es pat -> truthy es || truthy ss = true.
Proof.
  intros Hp [H | H]; apply (contains_ci_truthy _ _ Hp) in H; rewrite H;
    [apply orb_true_r | reflexivity].
Qed.

(** A coercion that throws ends the call at once, before anything is
    logged or looked up. *)
Lemma processMtpBuffer_error_throws (input : RawResult.t) (e : exn) :
  stringified (RawResult.error input) = throw e ->
  processMtpBuffer EOL input = ([], Throw e).
Proof. unfold processMtpBuffer. now intros ->. Qed.

Lemma processMtpBuffer_stderr_throws (input : RawResult.t) (es : string) (e : exn) :
  coerces_to (RawResult.error input) es ->
  stringified (RawResult.stderr input) = throw e ->
  processMtpBuffer EOL input = ([], Throw e).
Proof. unfold coerces_to, processMtpBuffer. now intros -> ->. Qed.

Lemma processLocalBuffer_error_throws (input : RawResult.t) (e : exn) :
  stringified (RawResult.error input) = throw e ->
  processLocalBuffer EOL input = ([], Throw e).
Proof. unfold processLocalBuffer. now intros ->. Qed.

Lemma processLocalBuffer_stderr_throws (input : RawResult.t) (es : string) (e : exn) :
  coerces_to (RawResult.error input) es ->
  stringified (RawResult.stderr input) = throw e ->
  processLocalBuffer EOL input = ([], Throw e).
Proof. unfold coerces_to, processLocalBuffer. now intros -> ->. Qed.

(** The early return of both classifiers. *)
Lemma processMtpBuffer_silent (input : RawResult.t) :
  coerces_to (RawResult.error input) EmptyString ->
  coerces_to (RawResult.stderr input) EmptyString ->
  processMtpBuffer EOL input =
  ([], Normal (Result.mk None false true (Some true))).
Proof. unfold coerces_to, processMtpBuffer. now intros -> ->. Qed.

Lemma processLocalBuffer_silent (input : RawResult.t) :
  coerces_to (RawResult.error input) EmptyString ->
  coerces_to (RawResult.stderr input) EmptyString ->
  processLocalBuffer EOL input = ([], Normal (Result.mk None false true None)).
Proof. unfold coerces_to, processLocalBuffer. now intros -> ->. Qed.

(** The chain of tests of [processMtpBuffer] on a non-empty input. *)
Lemma processMtpBuffer_chain (input : RawResult.t) (es ss : string) :
  coerces_to (RawResult.error input) es ->
  coerces_to (RawResult.stderr input) ss ->
  truthy es || truthy ss = true ->
  outcome (processMtpBuffer EOL input) =
  Normal
    (if matches ss es "No MTP device found" then
       Result.mk (Some Mtp.errorDictionary.noMtp) false false (Some false)
     else if matches ss es "invalid response code InvalidObjectHandle" then
       Result.mk (Some Mtp.errorDictionary.unResponsive) true true (Some false)
     else if matches ss es "invalid response code InvalidStorageID" then
       Result.mk (Some Mtp.errorDictionary.unResponsive) true true (Some false)
     else if matches ss es "WritePipe" then
       Result.mk (Some Mtp.errorDictionary.unResponsive) true true (Some false)
     else if matches ss es "MTP storage not accessible" then
       Result.mk (Some Mtp.errorDictionary.mtpStorageNotAccessible)
                 true true (Some false)
     else if matches ss es "error: storage" then
       Result.mk (Some Mtp.errorDictionary.mtpStorageNotAccessible)
                 true true (Some false)
     else if matches ss es "could not find" then
       Result.mk (Some (sanitizeErrors (Some (orString ss es))))
                 true true (Some true)
     else if matches ss es "No such file or directory" then
       Result.mk (Some Mtp.errorDictionary.fileNotFound) true true (Some true)
     else if matches ss es "No files selected" then
       Result.mk (Some (sanitizeErrors (Some (orString ss es))))
                 true true (Some true)
     else if matches ss es "Invalid path" then
       Result.mk (Some (sanitizeErrors (Some (orString ss es))))
                 true true (Some true)
     else if matches ss es "PartialDeletion" then
       Result.mk (Some Mtp.errorDictionary.partialDeletion) true true (Some true)
     else
       Result.mk (Some Mtp.errorDictionary.common) true true (Some true)).
Proof.
  unfold coerces_to, processMtpBuffer, outcome. intros -> -> Ht.
  cbn [bind ret fst snd].
  replace (negb (truthy es) && negb (truthy ss)) with false
    by (destruct (truthy es), (truthy ss); simpl in *; congruence).
  cbn. split_on_matches; reflexivity.
Qed.

(** The chain of tests of [processLocalBuffer] on a non-empty input: the
    look-up of the key [invalidPath], which the literal [errorTpl] of this
    function does not have, throws. *)
Lemma processLocalBuffer_chain (input : RawResult.t) (es ss : string) :
  coerces_to (RawResult.error input) es ->
  coerces_to (RawResult.stderr input) ss ->
  truthy es || truthy ss = true ->
  outcome (processLocalBuffer EOL input) =
  if matches ss es "Operation not permitted" then
    Normal (Result.mk (Some Local.errorDictionary.noPerm) true true None)
  else if matches ss es "Permission denied" then
    Normal (Result.mk (Some Local.errorDictionary.noPerm) true true None)
  else if matches ss es "Command failed" then
    Normal (Result.mk (Some Local.errorDictionary.commandFailed) true true None)
  else if matches ss es "No such file or directory" then
    Normal (Result.mk (Some Local.errorDictionary.fileNotFound)
                      true true (Some true))
  else Throw TypeError.
Proof.
  unfold coerces_to, processLocalBuffer, outcome. intros -> -> Ht.
  cbn [bind ret fst snd].
  replace (negb (truthy es) && negb (truthy ss)) with false
    by (destruct (truthy es), (truthy ss); simpl in *; congruence).
  cbn. split_on_matches; reflexivity.
Qed.

End ClassifierFacts.

Lemma absent_iff (s pat : string) :
  indexOf s pat = (-1)%Z <-> ~ occurs pat s.
Proof.
  rewrite <- indexOf_found. split; [intros H H'; now apply H' | intros H].
  destruct (Z.eq_dec (indexOf s pat) (-1)%Z); [assumption | contradiction].
Qed.

(** The classifiers read their input only through the two coercions. *)
Lemma processMtpBuffer_ext (EOL : string) (input input' : RawResult.t) :
  stringified (RawResult.error input) = stringified (RawResult.error input') ->
  stringified (RawResult.stderr input) = stringified (RawResult.stderr input') ->
  processMtpBuffer EOL input = processMtpBuffer EOL input'.
Proof. unfold processMtpBuffer. now intros -> ->. Qed.

Lemma processLocalBuffer_ext (EOL : string) (input input' : RawResult.t) :
  stringified (RawResult.error input) = stringified (RawResult.error input') ->
  stringified (RawResult.stderr input) = stringified (RawResult.stderr input') ->
  processLocalBuffer EOL input = processLocalBuffer EOL input'.
Proof. unfold processLocalBuffer. now intros -> ->. Qed.

Lemma both_empty_truthy (es ss : string) :
  truthy es || truthy ss = false <-> es = EmptyString /\ ss = EmptyString.
Proof.
  destruct es, ss; simpl; split; try discriminate; try tauto;
    intros [H1 H2]; discriminate.
Qed.

(** Turns the hypotheses on [mentions] and [none_of] into values of the
    tests of the chain. *)
Ltac decide_tests :=
  unfold none_of in *;
  repeat match goal with
         | H : Forall _ (_ :: _) |- _ =>
             apply Forall_cons_iff in H; destruct H as [? H]
         | H : Forall _ [] |- _ => clear H
         | H : ~ mentions _ _ _ |- _ => apply not_mentions_iff in H
         | H : mentions _ _ _ |- _ => apply mentions_iff in H
         end;
  repeat match goal with
         | H : matches _ _ _ = _ |- _ => rewrite H
         end.

(** On the Local channel an input that is not empty and matches none of the
    three patterns of [errorTpl] ends in the [TypeError] of the look-up of
    [invalidPath]. *)
Lemma processLocalBuffer_unmatched_throws
    (EOL : string) (input : RawResult.t) (es ss : string) :
  coerces_to (RawResult.error input) es ->
  coerces_to (RawResult.stderr input) ss ->
  truthy es || truthy ss = true ->
  none_of ss es ["Operation not permitted"; "Permission denied";
                 "Command failed"; "No such file or directory"] ->
  outcome (processLocalBuffer EOL input) = Throw TypeError.
Proof.
  intros He Hs Ht Hn. rewrite (processLocalBuffer_chain EOL input es ss He Hs Ht).
  decide_tests. reflexivity.
Qed.

(** Where the [error] property of a returned object comes from: it is
    [null], one of the fixed messages of [errorDictionary], or the
    sanitized text. *)
Lemma processMtpBuffer_error_provenance
    (EOL : string) (input : RawResult.t) (es ss : string) (r : Result.t) :
  coerces_to (RawResult.error input) es ->
  coerces_to (RawResult.stderr input) ss ->
  outcome (processMtpBuffer EOL input) = Normal r ->
  Result.error r = None \/
  In (Result.error r)
     [Some Mtp.errorDictionary.noMtp; Some Mtp.errorDictionary.unResponsive;
      Some Mtp.errorDictionary.mtpStorageNotAccessible;
      Some Mtp.errorDictionary.fileNotFound;
      Some Mtp.errorDictionary.partialDeletion;
      Some Mtp.errorDictionary.common] \/
  Result.error r = Some (sanitizeErrors (Some (orString ss es))).
Proof.
  intros He Hs. destruct (truthy es || truthy ss) eqn:Ht.
  - rewrite (processMtpBuffer_chain EOL input es ss He Hs Ht).
    split_on_matches; intros H; injection H as <-; cbn [Result.error In];
      tauto.
  - apply both_empty_truthy in Ht as [-> ->].
    rewrite (processMtpBuffer_silent EOL input He Hs). cbn.
    intros H; injection H as <-. now left.
Qed.


(* ================================================================= *)
(** ** The claims *)

(** C8. When both [error] and [stderr] are empty ([null], or coercing to
    the empty string), each classifier returns its silent-success object
    ([error: null], [throwAlert: false], and [status: true] on the MTP
    channel) and its trace is empty: [checkError] was never invoked and
    [log.doLog] was never called. *)
Theorem C8_empty_input_is_silent_success
    (EOL : string) (input : RawResult.t)
    (Herror : is_empty (RawResult.error input))
    (Hstderr : is_empty (RawResult.stderr input)) :
  (trace (processMtpBuffer EOL input) = [] /\
   outcome (processMtpBuffer EOL input) =
   Normal (Result.mk None false true (Some true))) /\
  (trace (processLocalBuffer EOL input) = [] /\
   outcome (processLocalBuffer EOL input) =
   Normal (Result.mk None false true None)).
Proof.
  apply is_empty_coerces in Herror, Hstderr.
  rewrite (processMtpBuffer_silent EOL input Herror Hstderr).
  rewrite (processLocalBuffer_silent EOL input Herror Hstderr).
  repeat split.
Qed.

Lemma C8_empty_input_is_silent_success_witness :
  let input := RawResult.mk (Str EmptyString) Null in
  is_empty (RawResult.error input) /\
  is_empty (RawResult.stderr input) /\
  trace (processMtpBuffer LF input) = [] /\
  outcome (processLocalBuffer LF input) =
  Normal (Result.mk None false true None).
Proof.
  intros input.
  assert (He : is_empty (RawResult.error input)) by (right; left; reflexivity).
  assert (Hs : is_empty (RawResult.stderr input)) by (left; reflexivity).
  split; [exact He | split; [exact Hs |]].
  destruct (C8_empty_input_is_silent_success LF input He Hs)
    as [[Ht _] [_ Ho]].
  split; [exact Ht | exact Ho].
Defined.

(** C10. On both channels the silent-success object returned for an empty
    input carries [logError: true], although the call logged nothing. *)
Theorem C10_silent_success_sets_logError
    (EOL : string) (input : RawResult.t)
    (Herror : is_empty (RawResult.error input))
    (Hstderr : is_empty (RawResult.stderr input)) :
  (exists r, outcome (processMtpBuffer EOL input) = Normal r /\
             Result.error r = None /\ Result.logError r = true) /\
  (exists r, outcome (processLocalBuffer EOL input) = Normal r /\
             Result.error r = None /\ Result.logError r = true) /\
  (forall message loud,
      ~ In (DoLog message loud) (trace (processMtpBuffer EOL input)) /\
      ~ In (DoLog message loud) (trace (processLocalBuffer EOL input))).
Proof.
  apply is_empty_coerces in Herror, Hstderr.
  rewrite (processMtpBuffer_silent EOL input Herror Hstderr).
  rewrite (processLocalBuffer_silent EOL input Herror Hstderr).
  split; [| split].
  - eexists; repeat split.
  - eexists; repeat split.
  - intros message loud; split; intros [].
Qed.

Lemma C10_silent_success_sets_logError_witness :
  let input := RawResult.mk Null (ErrorObj (Normal EmptyString)) in
  is_empty (RawResult.error input) /\
  is_empty (RawResult.stderr input) /\
  exists r, outcome (processMtpBuffer LF input) = Normal r /\
            Result.error r = None /\ Result.logError r = true.
Proof.
  intros input.
  assert (He : is_empty (RawResult.error input)) by (left; reflexivity).
  assert (Hs : is_empty (RawResult.stderr input)) by (right; right; reflexivity).
  split; [exact He | split; [exact Hs |]].
  exact (proj1 (C10_silent_success_sets_logError LF input He Hs)).
Defined.

(** C7. On the MTP channel, whenever [error] or [stderr] contains
    "No MTP device found" in any case, whatever else the two texts contain,
    the result is exactly
    [{error: "No MTP device found.", throwAlert: false, logError: false,
      status: false}]: the first test of the chain wins. *)
Theorem C7_no_device_wins
    (EOL : string) (input : RawResult.t) (es ss : string)
    (Herror : coerces_to (RawResult.error input) es)
    (Hstderr : coerces_to (RawResult.stderr input) ss)
    (Hfound : mentions ss es "No MTP device found") :
  outcome (processMtpBuffer EOL input) =
  Normal (Result.mk (Some "No MTP device found.") false false (Some false)).
Proof.
  rewrite (processMtpBuffer_chain EOL input es ss Herror Hstderr
             (mentions_truthy ss es "No MTP device found" eq_refl Hfound)).
  decide_tests. reflexivity.
Qed.

Lemma C7_no_device_wins_witness :
  let es := "error: storage; WritePipe; could not find it" in
  let ss := "no mtp DEVICE found (invalid response code InvalidObjectHandle)" in
  let input := RawResult.mk (Str es) (Str ss) in
  mentions ss es "No MTP device found" /\
  mentions ss es "error: storage" /\
  outcome (processMtpBuffer LF input) =
  Normal (Result.mk (Some "No MTP device found.") false false (Some false)).
Proof.
  intros es ss input.
  assert (H : mentions ss es "No MTP device found")
    by (apply mentions_iff; vm_compute; reflexivity).
  split; [exact H | split; [apply mentions_iff; vm_compute; reflexivity |]].
  exact (C7_no_device_wins LF input es ss eq_refl eq_refl H).
Defined.

(** C5, as stated, fails: "storage not accessible" without the leading
    "MTP " is not a pattern of the table and falls to the catch-all, and a
    pattern tested earlier takes precedence over "error: storage". *)
Lemma C5_counterexample :
  outcome (processMtpBuffer LF (RawResult.mk Null (Str "storage not accessible")))
  = Normal (Result.mk (Some "Oops.. Your MTP device has gone crazy! Try again.")
                      true true (Some true)) /\
  outcome (processMtpBuffer LF
             (RawResult.mk Null (Str "WritePipe failed, error: storage")))
  = Normal (Result.mk
              (Some "MTP device is not responding. Reload or reconnect device.")
              true true (Some false)).
Proof. split; vm_compute; reflexivity. Qed.

(** C5, amended. On the MTP channel, whenever [error] or [stderr] contains
    "MTP storage not accessible" or "error: storage" in any case and
    neither contains one of the patterns tested before them
    ("No MTP device found", "invalid response code InvalidObjectHandle",
    "invalid response code InvalidStorageID", "WritePipe"), the result is
    exactly [{error: "MTP storage not accessible.", throwAlert: true,
    logError: true, status: false}]. *)
Theorem C5_storage_not_accessible
    (EOL : string) (input : RawResult.t) (es ss : string)
    (Herror : coerces_to (RawResult.error input) es)
    (Hstderr : coerces_to (RawResult.stderr input) ss)
    (Hfound : mentions ss es "MTP storage not accessible" \/
              mentions ss es "error: storage")
    (Hfirst : none_of ss es
                ["No MTP device found";
                 "invalid response code InvalidObjectHandle";
                 "invalid response code InvalidStorageID";
                 "WritePipe"]) :
  outcome (processMtpBuffer EOL input) =
  Normal (Result.mk (Some "MTP storage not accessible.") true true (Some false)).
Proof.
  assert (Ht : truthy es || truthy ss = true).
  { destruct Hfound as [H | H];
      [apply (mentions_truthy ss es "MTP storage not accessible" eq_refl H)
      | apply (mentions_truthy ss es "error: storage" eq_refl H)]. }
  rewrite (processMtpBuffer_chain EOL input es ss Herror Hstderr Ht).
  destruct Hfound; decide_tests; [reflexivity |].
  destruct (matches ss es "MTP storage not accessible"); reflexivity.
Qed.

Lemma C5_storage_not_accessible_witness :
  let es := "Error: storage unavailable" in
  let input := RawResult.mk (ErrorObj (Normal es)) Null in
  (mentions EmptyString es "MTP storage not accessible" \/
   mentions EmptyString es "error: storage") /\
  outcome (processMtpBuffer LF input) =
  Normal (Result.mk (Some "MTP storage not accessible.") true true (Some false)).
Proof.
  intros es input.
  assert (H : mentions EmptyString es "MTP storage not accessible" \/
              mentions EmptyString es "error: storage")
    by (right; apply mentions_iff; vm_compute; reflexivity).
  split; [exact H |].
  apply (C5_storage_not_accessible LF input es EmptyString eq_refl eq_refl H).
  repeat constructor; apply not_mentions_iff; vm_compute; reflexivity.
Defined.

(** C6, as stated, fails for two of the five kinds: the results for
    NoSuchFile and PartialDeletion carry a fixed message, not the sanitized
    raw text. *)
Lemma C6_counterexample :
  let raw1 := "rm: /sdcard/a: No such file or directory" in
  let raw2 := "error: PartialDeletion of /sdcard/b" in
  (outcome (processMtpBuffer LF (RawResult.mk Null (Str raw1)))
   = Normal (Result.mk (Some "File not found! Try again.") true true (Some true))
   /\ sanitizeErrors (Some raw1) = "Rm: /sdcard/a: No such file or directory") /\
  (outcome (processMtpBuffer LF (RawResult.mk Null (Str raw2)))
   = Normal (Result.mk (Some "The path is inaccessible.") true true (Some true))
   /\ sanitizeErrors (Some raw2) = "PartialDeletion of /sdcard/b").
Proof. repeat split; vm_compute; reflexivity. Qed.

(** C6, amended. On the MTP channel each of the kinds FileNotFound,
    NoSuchFile, NoFilesSelected, InvalidPath and PartialDeletion (its
    pattern is contained in [error] or [stderr] and no pattern tested
    before it is) yields [status: true] with [throwAlert] and [logError]
    true; the message is [sanitizeErrors] of the raw text ([stderr] when it
    is not empty, else [error]) for FileNotFound, NoFilesSelected and
    InvalidPath, the fixed "File not found! Try again." for NoSuchFile and
    the fixed "The path is inaccessible." for PartialDeletion. *)
Theorem C6_recoverable_kinds
    (EOL : string) (input : RawResult.t) (es ss : string)
    (Herror : coerces_to (RawResult.error input) es)
    (Hstderr : coerces_to (RawResult.stderr input) ss)
    (Hfirst : none_of ss es
                ["No MTP device found";
                 "invalid response code InvalidObjectHandle";
                 "invalid response code InvalidStorageID";
                 "WritePipe";
                 "MTP storage not accessible";
                 "error: storage"]) :
  let raw := if truthy ss then ss else es in
  let sanitized :=
    Normal (Result.mk (Some (sanitizeErrors (Some raw))) true true (Some true)) in
  (mentions ss es "could not find" ->
   outcome (processMtpBuffer EOL input) = sanitized) /\
  (mentions ss es "No such file or directory" ->
   none_of ss es ["could not find"] ->
   outcome (processMtpBuffer EOL input) =
   Normal (Result.mk (Some "File not found! Try again.") true true (Some true))) /\
  (mentions ss es "No files selected" ->
   none_of ss es ["could not find"; "No such file or directory"] ->
   outcome (processMtpBuffer EOL input) = sanitized) /\
  (mentions ss es "Invalid path" ->
   none_of ss es ["could not find"; "No such file or directory"] ->
   outcome (processMtpBuffer EOL input) = sanitized) /\
  (mentions ss es "PartialDeletion" ->
   none_of ss es ["could not find"; "No such file or directory";
                  "No files selected"; "Invalid path"] ->
   outcome (processMtpBuffer EOL input) =
   Normal (Result.mk (Some "The path is inaccessible.") true true (Some true))).
Proof.
  intros raw sanitized.
  assert (Hrun : forall pat, truthy pat = true -> mentions ss es pat ->
            outcome (processMtpBuffer EOL input) = _)
    by (intros pat Hp Hm;
        exact (processMtpBuffer_chain EOL input es ss Herror Hstderr
                 (mentions_truthy ss es pat Hp Hm))).
  repeat split.
  - intros Hm. rewrite (Hrun "could not find" eq_refl Hm).
    decide_tests. reflexivity.
  - intros Hm Hn. rewrite (Hrun "No such file or directory" eq_refl Hm).
    decide_tests. reflexivity.
  - intros Hm Hn. rewrite (Hrun "No files selected" eq_refl Hm).
    decide_tests. reflexivity.
  - intros Hm Hn. rewrite (Hrun "Invalid path" eq_refl Hm). decide_tests.
    destruct (matches ss es "No files selected"); reflexivity.
  - intros Hm Hn. rewrite (Hrun "PartialDeletion" eq_refl Hm).
    decide_tests. reflexivity.
Qed.

Lemma C6_recoverable_kinds_witness :
  let es := "Error: Invalid path" in
  let ss := "error: stat failed: could not find /sdcard/DCIM " in
  let input := RawResult.mk (Str es) (Str ss) in
  mentions ss es "could not find" /\
  outcome (processMtpBuffer LF input) =
  Normal (Result.mk (Some "Could not find /sdcard/DCIM") true true (Some true)).
Proof.
  intros es ss input.
  assert (H : mentions ss es "could not find")
    by (apply mentions_iff; vm_compute; reflexivity).
  split; [exact H |].
  assert (Hn : none_of ss es
                ["No MTP device found";
                 "invalid response code InvalidObjectHandle";
                 "invalid response code InvalidStorageID";
                 "WritePipe";
                 "MTP storage not accessible";
                 "error: storage"])
    by (repeat constructor; apply not_mentions_iff; vm_compute; reflexivity).
  exact (proj1 (C6_recoverable_kinds LF input es ss eq_refl eq_refl Hn) H).
Defined.

(** C2, as stated, fails: the non-silent results for CommandFailed and
    NoPermission have no [status] property. *)
Lemma C2_counterexample :
  (exists r,
      outcome (processLocalBuffer LF
                 (RawResult.mk (Str "Command failed: mv") Null)) = Normal r /\
      Result.error r = Some "Could not complete! Try again." /\
      Result.status r = None) /\
  (exists r,
      outcome (processLocalBuffer LF
                 (RawResult.mk Null (Str "rm: Permission denied"))) = Normal r /\
      Result.error r = Some "Operation not permitted." /\
      Result.status r = None).
Proof. split; eexists; repeat split. Qed.

(** C2, amended. On the Local channel the silent-success object has no
    [status] property; of the non-silent results, the NoSuchFile one
    contains [status: true], and the NoPermission and CommandFailed ones
    have no [status] property. *)
Theorem C2_local_status_field
    (EOL : string) (input : RawResult.t) (es ss : string)
    (Herror : coerces_to (RawResult.error input) es)
    (Hstderr : coerces_to (RawResult.stderr input) ss) :
  (es = EmptyString /\ ss = EmptyString ->
   outcome (processLocalBuffer EOL input) =
   Normal (Result.mk None false true None)) /\
  (mentions ss es "Operation not permitted" \/
   mentions ss es "Permission denied" ->
   outcome (processLocalBuffer EOL input) =
   Normal (Result.mk (Some "Operation not permitted.") true true None)) /\
  (mentions ss es "Command failed" ->
   none_of ss es ["Operation not permitted"; "Permission denied"] ->
   outcome (processLocalBuffer EOL input) =
   Normal (Result.mk (Some "Could not complete! Try again.") true true None)) /\
  (mentions ss es "No such file or directory" ->
   none_of ss es ["Operation not permitted"; "Permission denied";
                  "Command failed"] ->
   outcome (processLocalBuffer EOL input) =
   Normal (Result.mk (Some "File not found! Try again.") true true (Some true))).
Proof.
  assert (Hrun : forall pat, truthy pat = true -> mentions ss es pat ->
            outcome (processLocalBuffer EOL input) = _)
    by (intros pat Hp Hm;
        exact (processLocalBuffer_chain EOL input es ss Herror Hstderr
                 (mentions_truthy ss es pat Hp Hm))).
  repeat split.
  - intros [-> ->]. now rewrite (processLocalBuffer_silent EOL input Herror Hstderr).
  - intros [Hm | Hm].
    + rewrite (Hrun "Operation not permitted" eq_refl Hm).
      decide_tests. reflexivity.
    + rewrite (Hrun "Permission denied" eq_refl Hm). decide_tests.
      destruct (matches ss es "Operation not permitted"); reflexivity.
  - intros Hm Hn. rewrite (Hrun "Command failed" eq_refl Hm).
    decide_tests. reflexivity.
  - intros Hm Hn. rewrite (Hrun "No such file or directory" eq_refl Hm).
    decide_tests. reflexivity.
Qed.

Lemma C2_local_status_field_witness :
  let es := "ENOENT: no such file or directory, rename '/a'" in
  let input := RawResult.mk (Str es) (Str es) in
  mentions es es "No such file or directory" /\
  exists r, outcome (processLocalBuffer LF input) = Normal r /\
            Result.status r = Some true.
Proof.
  intros es input.
  assert (H : mentions es es "No such file or directory")
    by (apply mentions_iff; vm_compute; reflexivity).
  split; [exact H |].
  destruct (C2_local_status_field LF input es es eq_refl eq_refl)
    as [_ [_ [_ Hk]]].
  eexists; split; [apply (Hk H) | reflexivity].
  repeat constructor; apply not_mentions_iff; vm_compute; reflexivity.
Defined.

(** C3: the catch-all of the Local channel is not reached.  For the input
    [{error: "disk full", stderr: null}], which matches no pattern, the
    call throws a [TypeError] from [checkError('invalidPath')] instead of
    returning the generic message. *)
Theorem C3_local_catch_all_throws :
  processLocalBuffer LF (RawResult.mk (Str "disk full") Null) =
  ([DoLog ("Local buffer o/p logging;" ++ LF ++ "error: disk full" ++ LF
           ++ "stderr: ") None;
    Checked "noPerm1"; Checked "noPerm2"; Checked "commandFailed";
    Checked "noSuchFiles"; Checked "invalidPath"],
   Throw TypeError).
Proof. vm_compute. reflexivity. Qed.

(** C4: on the Local channel an InvalidPath input yields no result at all.
    For [{error: "error: Invalid path /x", stderr: null}] the call throws
    a [TypeError] from [checkError('invalidPath')]; the sanitized text the
    claim expects in [error] is "Invalid path /x". *)
Theorem C4_local_invalid_path_throws :
  let raw := "error: Invalid path /x" in
  outcome (processLocalBuffer LF (RawResult.mk (Str raw) Null)) = Throw TypeError /\
  get Local.errorTpl "invalidPath" = None /\
  sanitizeErrors (Some raw) = "Invalid path /x".
Proof. repeat split; vm_compute; reflexivity. Qed.

(** C1, as stated, fails: a coercion that throws is not treated as an empty
    field, the exception leaves the classifier (here the other field is
    [null], so that treating the field as empty would give the silent
    success). *)
Lemma C1_counterexample :
  let input := RawResult.mk (ErrorObj (Throw (Raised "toString"))) Null in
  outcome (processMtpBuffer LF input) = Throw (Raised "toString") /\
  outcome (processLocalBuffer LF input) = Throw (Raised "toString") /\
  outcome (processMtpBuffer LF (RawResult.mk Null Null)) =
  Normal (Result.mk None false true (Some true)).
Proof. repeat split. Qed.

(** C1, amended. Each field being a string, an [Error] or [null]:
    when the coercion of a field throws, both classifiers throw that
    exception, having logged nothing; when both coercions return,
    the classifiers depend on the input through the two texts only (a field
    that coerces to the empty string counts as empty), [processMtpBuffer]
    returns a structured result, and [processLocalBuffer] returns one when
    both texts are empty or one of them contains a NoPermission,
    CommandFailed or NoSuchFile pattern. *)
Theorem C1_classifiers_return_or_propagate
    (EOL : string) (input : RawResult.t) :
  (forall e, stringified (RawResult.error input) = throw e ->
     processMtpBuffer EOL input = ([], Throw e) /\
     processLocalBuffer EOL input = ([], Throw e)) /\
  (forall es e, coerces_to (RawResult.error input) es ->
     stringified (RawResult.stderr input) = throw e ->
     processMtpBuffer EOL input = ([], Throw e) /\
     processLocalBuffer EOL input = ([], Throw e)) /\
  (forall es ss, coerces_to (RawResult.error input) es ->
     coerces_to (RawResult.stderr input) ss ->
     (processMtpBuffer EOL input
      = processMtpBuffer EOL (RawResult.mk (Str es) (Str ss)) /\
      processLocalBuffer EOL input
      = processLocalBuffer EOL (RawResult.mk (Str es) (Str ss))) /\
     (exists r, outcome (processMtpBuffer EOL input) = Normal r) /\
     ((es = EmptyString /\ ss = EmptyString) \/
      mentions ss es "Operation not permitted" \/
      mentions ss es "Permission denied" \/
      mentions ss es "Command failed" \/
      mentions ss es "No such file or directory" ->
      exists r, outcome (processLocalBuffer EOL input) = Normal r)).
Proof.
  split; [| split].
  - intros e He. split;
      [now apply processMtpBuffer_error_throws
      | now apply processLocalBuffer_error_throws].
  - intros es e He Hs. split;
      [now apply processMtpBuffer_stderr_throws with es
      | now apply processLocalBuffer_stderr_throws with es].
  - intros es ss He Hs. split; [| split].
    + split; [apply processMtpBuffer_ext | apply processLocalBuffer_ext];
        assumption.
    + destruct (truthy es || truthy ss) eqn:Ht.
      * rewrite (processMtpBuffer_chain EOL input es ss He Hs Ht). eauto.
      * apply both_empty_truthy in Ht as [-> ->].
        rewrite (processMtpBuffer_silent EOL input He Hs). cbn. eauto.
    + destruct (truthy es || truthy ss) eqn:Ht.
      * rewrite (processLocalBuffer_chain EOL input es ss He Hs Ht).
        intros [[-> ->] | H]; [discriminate |].
        destruct H as [H | [H | [H | H]]]; apply mentions_iff in H;
          split_on_matches; try discriminate; eauto.
      * apply both_empty_truthy in Ht as [-> ->]. intros _.
        rewrite (processLocalBuffer_silent EOL input He Hs). cbn. eauto.
Qed.

Lemma C1_classifiers_return_or_propagate_witness :
  let input := RawResult.mk (ErrorObj (Normal "Error: Command failed: mv"))
                            (Str "mv: Permission denied") in
  mentions "mv: Permission denied" "Error: Command failed: mv" "Permission denied" /\
  (exists r, outcome (processMtpBuffer LF input) = Normal r) /\
  (exists r, outcome (processLocalBuffer LF input) = Normal r).
Proof.
  intros input.
  assert (H : mentions "mv: Permission denied" "Error: Command failed: mv"
                "Permission denied")
    by (apply mentions_iff; vm_compute; reflexivity).
  split; [exact H |].
  destruct (C1_classifiers_return_or_propagate LF input) as [_ [_ Hk]].
  destruct (Hk "Error: Command failed: mv" "mv: Permission denied"
              eq_refl eq_refl) as [_ [Hm Hl]].
  split; [exact Hm | apply Hl; right; right; left; exact H].
Defined.

(** C9, as stated, fails: "aerrerror:or:" does not start with "error: " and
    does not contain "stat failed:", its sanitized form is "Aerror:", and
    sanitizing that gives "A": removing the occurrence of "error:" brings
    a new one together. *)
Lemma C9_counterexample :
  let x := "aerrerror:or:" in
  startsWith "error: " x = false /\
  ~ occurs "stat failed:" x /\
  sanitizeErrors (Some x) = "Aerror:" /\
  sanitizeErrors (Some (sanitizeErrors (Some x))) = "A" /\
  sanitizeErrors (Some (sanitizeErrors (Some x))) <> sanitizeErrors (Some x).
Proof.
  intros x. split; [reflexivity |]. split; [now apply absent_iff |].
  split; [reflexivity |]. split; [reflexivity |]. discriminate.
Qed.

(** C9, amended. For every string [x] that does not start with "error: "
    and does not contain "stat failed:", and whose sanitized form contains
    neither "error:" nor "stat failed:",
    [sanitizeErrors (sanitizeErrors x) = sanitizeErrors x]. *)
Theorem C9_sanitizeErrors_idempotent
    (x : string)
    (Hprefix : startsWith "error: " x = false)
    (Hstat : ~ occurs "stat failed:" x)
    (Herror' : ~ occurs "error:" (sanitizeErrors (Some x)))
    (Hstat' : ~ occurs "stat failed:" (sanitizeErrors (Some x))) :
  sanitizeErrors (Some (sanitizeErrors (Some x))) = sanitizeErrors (Some x).
Proof. now apply sanitizeErrors_fixed. Qed.

Lemma C9_sanitizeErrors_idempotent_witness :
  let x := "  could not find error: /sdcard/a " in
  startsWith "error: " x = false /\
  ~ occurs "stat failed:" x /\
  sanitizeErrors (Some x) = "Could not find  /sdcard/a" /\
  sanitizeErrors (Some (sanitizeErrors (Some x))) = sanitizeErrors (Some x).
Proof.
  intros x. split; [reflexivity |]. split; [now apply absent_iff |].
  split; [reflexivity |].
  apply C9_sanitizeErrors_idempotent;
    [reflexivity | now apply absent_iff | now apply absent_iff
    | now apply absent_iff].
Defined.

(* ================================================================= *)
(** ** Further properties of the sanitizer *)

Section SanitizerShape.

Lemma is_lower_upper_char (c : ascii) : is_lower (upper_char c) = false.
Proof.
  destruct c as [b0 b1 b2 b3 b4 b5 b6 b7];
    destruct b0, b1, b2, b3, b4, b5, b6, b7; reflexivity.
Qed.

Lemma append_cons (c : ascii) (a b : string) :
  String c a ++ b = String c (a ++ b).
Proof. reflexivity. Qed.

Lemma append_empty_l (b : string) : EmptyString ++ b = b.
Proof. reflexivity. Qed.


Lemma trimStart_suffix (s : string) : exists pre, s = pre ++ trimStart s.
Proof.
  induction s as [|c r [pre IH]]; [now exists EmptyString |]. simpl.
  destruct (is_space c).
  - exists (String c pre). rewrite append_cons. now rewrite <- IH.
  - now exists EmptyString.
Qed.

Lemma trimEnd_prefix (s : string) : exists suf, s = trimEnd s ++ suf.
Proof.
  induction s as [|c r [suf IH]]; [now exists EmptyString |]. simpl.
  destruct (trimEnd r) as [|d r'] eqn:E.
  - rewrite append_empty_l in IH. subst suf. destruct (is_space c).
    + now exists (String c r).
    + exists r. reflexivity.
  - exists suf. rewrite append_cons. now rewrite <- IH.
Qed.

(** [trim s] is a stretch of [s]. *)
Lemma trim_stretch (s : string) : exists pre suf, s = pre ++ trim s ++ suf.
Proof.
  destruct (trimStart_suffix s) as [pre Hp].
  destruct (trimEnd_prefix (trimStart s)) as [suf Hs].
  exists pre, suf. unfold trim. now rewrite <- Hs.
Qed.

Lemma app_assoc_str (a b c : string) : (a ++ b) ++ c = a ++ b ++ c.
Proof.
  induction a as [|x a IH]; [reflexivity |].
  now rewrite !append_cons, IH.
Qed.

Lemma occurs_stretch (pat s pre suf : string) :
  occurs pat s -> occurs pat (pre ++ s ++ suf).
Proof.
  intros [a [b ->]]. exists (pre ++ a), (b ++ suf).
  now rewrite !app_assoc_str.
Qed.

Lemma occurs_trim (pat s : string) : occurs pat (trim s) -> occurs pat s.
Proof.
  intros H. destruct (trim_stretch s) as [pre [suf Hs]].
  rewrite Hs. now apply occurs_stretch.
Qed.


Lemma trim_idem (s : string) : trim (trim s) = trim s.
Proof.
  destruct (trim_shape s) as [-> | [c [r [-> [Hc Hr]]]]]; [reflexivity |].
  now apply trim_fixed.
Qed.






Lemma occurs_capitalized (a : ascii) (p t : string) :
  is_lower a = true ->
  occurs (String a p) (toUpperCase (charAt0 t) ++ slice1 t) ->
  occurs (String a p) t.
Proof.
  intros Ha. rewrite capitalize_eq. destruct t as [|c r]; [easy |].
  intros [pre [suf H]]. destruct pre as [|x pre].
  - rewrite append_empty_l, append_cons in H. injection H as Hc _.
    pose proof (is_lower_upper_char c) as Hl. rewrite Hc in Hl. congruence.
  - rewrite append_cons in H. injection H as _ ->.
    exists (String c pre), suf. now rewrite append_cons.
Qed.

End SanitizerShape.



(** X3. On a text that contains neither "error:" nor "stat failed:" the
    sanitizer only trims and upper-cases the first character, and applying
    it again changes nothing. *)
Theorem sanitizeErrors_pattern_free (x : string)
    (Herror : ~ occurs "error:" x)
    (Hstat : ~ occurs "stat failed:" x) :
  sanitizeErrors (Some x) = toUpperCase (charAt0 (trim x)) ++ slice1 (trim x) /\
  sanitizeErrors (Some (sanitizeErrors (Some x))) = sanitizeErrors (Some x).
Proof.
  assert (Heq : sanitizeErrors (Some x)
                = toUpperCase (charAt0 (trim x)) ++ slice1 (trim x)).
  { unfold sanitizeErrors.
    rewrite (stripPrefix_absent _ Herror), replaceBulk_absent, trim_idem;
      [reflexivity |].
    intros f [<- | [<- | []]] H; apply occurs_trim in H; contradiction. }
  split; [exact Heq |].
  apply sanitizeErrors_fixed; rewrite Heq; intros H;
    apply occurs_capitalized in H; try reflexivity;
    apply occurs_trim in H; contradiction.
Qed.

Lemma sanitizeErrors_pattern_free_witness :
  let x := "  could not find /sdcard/a.txt " in
  ~ occurs "error:" x /\ ~ occurs "stat failed:" x /\
  sanitizeErrors (Some x) = "Could not find /sdcard/a.txt" /\
  sanitizeErrors (Some (sanitizeErrors (Some x))) = sanitizeErrors (Some x).
Proof.
  intros x.
  assert (He : ~ occurs "error:" x) by now apply absent_iff.
  assert (Hs : ~ occurs "stat failed:" x) by now apply absent_iff.
  split; [exact He | split; [exact Hs | split; [reflexivity |]]].
  exact (proj2 (sanitizeErrors_pattern_free x He Hs)).
Defined.

(* ================================================================= *)
(** ** Further properties of the classifiers *)

Ltac split_on_matches_eqn :=
  repeat match goal with
         | |- context [matches ?a ?b ?p] =>
             let E := fresh "E" in destruct (matches a b p) eqn:E; cbn
         end.

Lemma nonempty_truthy (es ss : string) :
  es <> EmptyString \/ ss <> EmptyString -> truthy es || truthy ss = true.
Proof. destruct es, ss; simpl; intros [H | H]; congruence. Qed.

Lemma matches_sym (a b pat : string) : matches a b pat = matches b a pat.
Proof. unfold matches. apply orb_comm. Qed.

Lemma truthy_toLowerCase (s s' : string) :
  toLowerCase s = toLowerCase s' -> truthy s = truthy s'.
Proof. destruct s, s'; simpl; intros H; congruence. Qed.

Lemma matches_toLowerCase (ss es ss' es' pat : string) :
  toLowerCase es = toLowerCase es' -> toLowerCase ss = toLowerCase ss' ->
  matches ss es pat = matches ss' es' pat.
Proof. unfold matches, includes_ci. now intros -> ->. Qed.

(** X4. A call of [processMtpBuffer] on an input that is not empty calls
    [log.doLog] exactly once, right after the NoDevice test: the message
    carries both texts trimmed, the second argument is false exactly when
    the NoDevice pattern was found; every other step of the call is a
    pattern test, and none follows when NoDevice was found. *)
Theorem processMtpBuffer_logs_once
    (EOL : string) (input : RawResult.t) (es ss : string)
    (Herror : coerces_to (RawResult.error input) es)
    (Hstderr : coerces_to (RawResult.stderr input) ss)
    (Hnonempty : es <> EmptyString \/ ss <> EmptyString) :
  exists rest,
    trace (processMtpBuffer EOL input) =
    Checked "noMtp"
    :: DoLog ("MTP buffer o/p logging;" ++ EOL ++ "error: " ++ trim es ++ EOL
              ++ "stderr: " ++ trim ss)
             (Some (negb (matches ss es "No MTP device found")))
    :: rest /\
    Forall (fun e => exists key, e = Checked key) rest /\
    (mentions ss es "No MTP device found" -> rest = []).
Proof.
  apply nonempty_truthy in Hnonempty.
  revert Herror Hstderr. unfold coerces_to, processMtpBuffer, trace.
  intros -> ->. cbn [bind ret fst snd].
  replace (negb (truthy es) && negb (truthy ss)) with false
    by (destruct (truthy es), (truthy ss); simpl in *; congruence).
  cbn.
  split_on_matches_eqn; eexists; (split; [reflexivity |]);
    (split; [repeat constructor; eauto
            | intros H; apply mentions_iff in H;
              first [reflexivity | congruence]]).
Qed.

Lemma processMtpBuffer_logs_once_witness :
  let input := RawResult.mk Null (Str " error: could not find /a ") in
  exists rest,
    trace (processMtpBuffer LF input) =
    Checked "noMtp"
    :: DoLog ("MTP buffer o/p logging;" ++ LF ++ "error: " ++ LF
              ++ "stderr: error: could not find /a")
             (Some true)
    :: rest.
Proof.
  intros input.
  destruct (processMtpBuffer_logs_once LF input EmptyString
              " error: could not find /a " eq_refl eq_refl)
    as [rest [H _]]; [right; discriminate |].
  exists rest. exact H.
Defined.

(** X5. A call of [processLocalBuffer] on an input that is not empty calls
    [log.doLog] exactly once, with the message alone, before any pattern is
    tested, also when the call then throws. *)
Theorem processLocalBuffer_logs_first
    (EOL : string) (input : RawResult.t) (es ss : string)
    (Herror : coerces_to (RawResult.error input) es)
    (Hstderr : coerces_to (RawResult.stderr input) ss)
    (Hnonempty : es <> EmptyString \/ ss <> EmptyString) :
  exists rest,
    trace (processLocalBuffer EOL input) =
    DoLog ("Local buffer o/p logging;" ++ EOL ++ "error: " ++ trim es ++ EOL
           ++ "stderr: " ++ trim ss) None
    :: Checked "noPerm1" :: rest /\
    Forall (fun e => exists key, e = Checked key) rest.
Proof.
  apply nonempty_truthy in Hnonempty.
  revert Herror Hstderr. unfold coerces_to, processLocalBuffer, trace.
  intros -> ->. cbn [bind ret fst snd].
  replace (negb (truthy es) && negb (truthy ss)) with false
    by (destruct (truthy es), (truthy ss); simpl in *; congruence).
  cbn.
  split_on_matches; eexists; (split; [reflexivity |]);
    repeat constructor; eauto.
Qed.

Lemma processLocalBuffer_logs_first_witness :
  let input := RawResult.mk (Str "disk full ") Null in
  outcome (processLocalBuffer LF input) = Throw TypeError /\
  exists rest,
    trace (processLocalBuffer LF input) =
    DoLog ("Local buffer o/p logging;" ++ LF ++ "error: disk full" ++ LF
           ++ "stderr: ") None
    :: Checked "noPerm1" :: rest.
Proof.
  intros input. split; [reflexivity |].
  destruct (processLocalBuffer_logs_first LF input "disk full " EmptyString
              eq_refl eq_refl)
    as [rest [H _]]; [left; discriminate |].
  exists rest. exact H.
Defined.

(** X6. How the flags of an MTP result depend on the input: [throwAlert]
    is false exactly for an empty input or one with the NoDevice pattern,
    [logError] is false exactly for the NoDevice pattern, and [status],
    always present, is false exactly when one of the six patterns of the
    NoDevice, unresponsive and storage kinds is found. *)
Theorem processMtpBuffer_flags
    (EOL : string) (input : RawResult.t) (es ss : string)
    (Herror : coerces_to (RawResult.error input) es)
    (Hstderr : coerces_to (RawResult.stderr input) ss) :
  exists r,
    outcome (processMtpBuffer EOL input) = Normal r /\
    (Result.throwAlert r = false <->
     (es = EmptyString /\ ss = EmptyString) \/
     mentions ss es "No MTP device found") /\
    (Result.logError r = false <-> mentions ss es "No MTP device found") /\
    (Result.status r = Some false <->
     Exists (mentions ss es)
       ["No MTP device found";
        "invalid response code InvalidObjectHandle";
        "invalid response code InvalidStorageID";
        "WritePipe";
        "MTP storage not accessible";
        "error: storage"]) /\
    (Result.status r = Some false \/ Result.status r = Some true).
Proof.
  assert (Hdone : forall r : Result.t,
    ((Result.throwAlert r = false <->
      (es = EmptyString /\ ss = EmptyString) \/
      matches ss es "No MTP device found" = true) /\
     (Result.logError r = false <-> matches ss es "No MTP device found" = true) /\
     (Result.status r = Some false <->
      matches ss es "No MTP device found" = true \/
      matches ss es "invalid response code InvalidObjectHandle" = true \/
      matches ss es "invalid response code InvalidStorageID" = true \/
      matches ss es "WritePipe" = true \/
      matches ss es "MTP storage not accessible" = true \/
      matches ss es "error: storage" = true \/ False) /\
     (Result.status r = Some false \/ Result.status r = Some true)) ->
    exists r', Normal r = Normal r' /\
      (Result.throwAlert r' = false <->
       (es = EmptyString /\ ss = EmptyString) \/
       mentions ss es "No MTP device found") /\
      (Result.logError r' = false <-> mentions ss es "No MTP device found") /\
      (Result.status r' = Some false <->
       Exists (mentions ss es)
         ["No MTP device found";
          "invalid response code InvalidObjectHandle";
          "invalid response code InvalidStorageID";
          "WritePipe";
          "MTP storage not accessible";
          "error: storage"]) /\
      (Result.status r' = Some false \/ Result.status r' = Some true)).
  { intros r H. exists r. split; [reflexivity |].
    rewrite !Exists_cons, Exists_nil, !mentions_iff. exact H. }
  destruct (truthy es || truthy ss) eqn:Ht.
  - rewrite (processMtpBuffer_chain EOL input es ss Herror Hstderr Ht).
    assert (Hne : ~ (es = EmptyString /\ ss = EmptyString))
      by (intros [-> ->]; discriminate).
    destruct (matches ss es "No MTP device found") eqn:E1;
      [apply Hdone; cbn; intuition congruence |].
    destruct (matches ss es "invalid response code InvalidObjectHandle") eqn:E2;
      [apply Hdone; cbn; intuition congruence |].
    destruct (matches ss es "invalid response code InvalidStorageID") eqn:E3;
      [apply Hdone; cbn; intuition congruence |].
    destruct (matches ss es "WritePipe") eqn:E4;
      [apply Hdone; cbn; intuition congruence |].
    destruct (matches ss es "MTP storage not accessible") eqn:E5;
      [apply Hdone; cbn; intuition congruence |].
    destruct (matches ss es "error: storage") eqn:E6;
      [apply Hdone; cbn; intuition congruence |].
    split_on_matches; apply Hdone; cbn; intuition congruence.
  - apply both_empty_truthy in Ht as [-> ->].
    rewrite (processMtpBuffer_silent EOL input Herror Hstderr).
    apply Hdone. cbn.
    repeat split; try (intros; intuition congruence);
      vm_compute; intuition congruence.
Qed.

Lemma processMtpBuffer_flags_witness :
  let input := RawResult.mk (Str "error: (*interface)->WritePipe(): 0xe00002eb")
                            Null in
  exists r,
    outcome (processMtpBuffer LF input) = Normal r /\
    Result.throwAlert r = true /\ Result.status r = Some false.
Proof.
  intros input.
  destruct (processMtpBuffer_flags LF input
              "error: (*interface)->WritePipe(): 0xe00002eb" EmptyString
              eq_refl eq_refl) as [r [Hr _]].
  exists r. split; [exact Hr |].
  injection Hr as <-. split; reflexivity.
Defined.

(** X7. On the MTP channel an input with one of the three unresponsive
    patterns (InvalidObjectHandle, InvalidStorageID, WritePipe) and without
    the NoDevice pattern is answered by the fixed "not responding" message
    with [status: false], whatever else it contains. *)
Theorem processMtpBuffer_unresponsive
    (EOL : string) (input : RawResult.t) (es ss : string)
    (Herror : coerces_to (RawResult.error input) es)
    (Hstderr : coerces_to (RawResult.stderr input) ss)
    (Hfound : mentions ss es "invalid response code InvalidObjectHandle" \/
              mentions ss es "invalid response code InvalidStorageID" \/
              mentions ss es "WritePipe")
    (Hdevice : ~ mentions ss es "No MTP device found") :
  outcome (processMtpBuffer EOL input) =
  Normal (Result.mk
            (Some "MTP device is not responding. Reload or reconnect device.")
            true true (Some false)).
Proof.
  assert (Ht : truthy es || truthy ss = true).
  { destruct Hfound as [H | [H | H]];
      [apply (mentions_truthy ss es
                "invalid response code InvalidObjectHandle" eq_refl H)
      | apply (mentions_truthy ss es
                 "invalid response code InvalidStorageID" eq_refl H)
      | apply (mentions_truthy ss es "WritePipe" eq_refl H)]. }
  rewrite (processMtpBuffer_chain EOL input es ss Herror Hstderr Ht).
  destruct Hfound as [H | [H | H]]; decide_tests;
    split_on_matches; reflexivity.
Qed.

Lemma processMtpBuffer_unresponsive_witness :
  let ss := "error: Get: invalid response code InvalidStorageID, could not find /a" in
  let input := RawResult.mk Null (Str ss) in
  mentions ss EmptyString "could not find" /\
  outcome (processMtpBuffer LF input) =
  Normal (Result.mk
            (Some "MTP device is not responding. Reload or reconnect device.")
            true true (Some false)).
Proof.
  intros ss input.
  split; [apply mentions_iff; vm_compute; reflexivity |].
  apply (processMtpBuffer_unresponsive LF input EmptyString ss eq_refl eq_refl).
  - right; left. apply mentions_iff; vm_compute; reflexivity.
  - apply not_mentions_iff; vm_compute; reflexivity.
Defined.

(** X8. On the MTP channel the catch-all is reached: an input that is not
    empty and contains none of the eleven patterns is answered by the fixed
    generic message with [throwAlert], [logError] and [status] all true. *)
Theorem processMtpBuffer_catch_all
    (EOL : string) (input : RawResult.t) (es ss : string)
    (Herror : coerces_to (RawResult.error input) es)
    (Hstderr : coerces_to (RawResult.stderr input) ss)
    (Hnonempty : es <> EmptyString \/ ss <> EmptyString)
    (Hnone : none_of ss es (map snd Mtp.errorTpl)) :
  outcome (processMtpBuffer EOL input) =
  Normal (Result.mk (Some "Oops.. Your MTP device has gone crazy! Try again.")
                    true true (Some true)).
Proof.
  rewrite (processMtpBuffer_chain EOL input es ss Herror Hstderr
             (nonempty_truthy es ss Hnonempty)).
  cbn [map snd Mtp.errorTpl] in Hnone. decide_tests. reflexivity.
Qed.

Lemma processMtpBuffer_catch_all_witness :
  let input := RawResult.mk (Str "disk full") Null in
  outcome (processMtpBuffer LF input) =
  Normal (Result.mk (Some "Oops.. Your MTP device has gone crazy! Try again.")
                    true true (Some true)) /\
  outcome (processLocalBuffer LF input) = Throw TypeError.
Proof.
  intros input. split; [| reflexivity].
  apply (processMtpBuffer_catch_all LF input "disk full" EmptyString
           eq_refl eq_refl).
  - left; discriminate.
  - repeat constructor; apply not_mentions_iff; vm_compute; reflexivity.
Defined.

(** X9. [processLocalBuffer] does not tell the two fields apart: exchanging
    [error] and [stderr] gives the same outcome. *)
Theorem processLocalBuffer_fields_exchange
    (EOL : string) (input : RawResult.t) (es ss : string)
    (Herror : coerces_to (RawResult.error input) es)
    (Hstderr : coerces_to (RawResult.stderr input) ss) :
  outcome (processLocalBuffer EOL
             (RawResult.mk (RawResult.stderr input) (RawResult.error input))) =
  outcome (processLocalBuffer EOL input).
Proof.
  destruct (truthy es || truthy ss) eqn:Ht.
  - rewrite (processLocalBuffer_chain EOL input es ss Herror Hstderr Ht).
    rewrite (processLocalBuffer_chain EOL
               (RawResult.mk (RawResult.stderr input) (RawResult.error input))
               ss es Hstderr Herror)
      by (now rewrite orb_comm).
    now rewrite !(matches_sym es ss).
  - apply both_empty_truthy in Ht as [-> ->].
    rewrite (processLocalBuffer_silent EOL input Herror Hstderr).
    now rewrite (processLocalBuffer_silent EOL
                   (RawResult.mk (RawResult.stderr input) (RawResult.error input))
                   Hstderr Herror).
Qed.

Lemma processLocalBuffer_fields_exchange_witness :
  let a := Str "rm: Permission denied" in
  outcome (processLocalBuffer LF (RawResult.mk Null a)) =
  outcome (processLocalBuffer LF (RawResult.mk a Null)).
Proof.
  intros a.
  exact (processLocalBuffer_fields_exchange LF (RawResult.mk a Null)
           "rm: Permission denied" EmptyString eq_refl eq_refl).
Defined.

(** X10. Classification does not depend on letter case.  Two inputs whose
    texts agree once lower-cased get the same outcome from
    [processLocalBuffer], and from [processMtpBuffer] results with the same
    [throwAlert], [logError] and [status]. *)
Theorem classification_ignores_case
    (EOL : string) (es ss es' ss' : string)
    (Herror : toLowerCase es = toLowerCase es')
    (Hstderr : toLowerCase ss = toLowerCase ss') :
  outcome (processLocalBuffer EOL (RawResult.mk (Str es) (Str ss))) =
  outcome (processLocalBuffer EOL (RawResult.mk (Str es') (Str ss'))) /\
  exists r r',
    outcome (processMtpBuffer EOL (RawResult.mk (Str es) (Str ss))) = Normal r /\
    outcome (processMtpBuffer EOL (RawResult.mk (Str es') (Str ss'))) = Normal r' /\
    Result.throwAlert r = Result.throwAlert r' /\
    Result.logError r = Result.logError r' /\
    Result.status r = Result.status r'.
Proof.
  pose proof (truthy_toLowerCase _ _ Herror) as Te.
  pose proof (truthy_toLowerCase _ _ Hstderr) as Ts.
  destruct (truthy es || truthy ss) eqn:Ht.
  - assert (Ht' : truthy es' || truthy ss' = true) by now rewrite <- Te, <- Ts.
    rewrite (processLocalBuffer_chain EOL (RawResult.mk (Str es) (Str ss))
               es ss eq_refl eq_refl Ht).
    rewrite (processLocalBuffer_chain EOL (RawResult.mk (Str es') (Str ss'))
               es' ss' eq_refl eq_refl Ht').
    rewrite (processMtpBuffer_chain EOL (RawResult.mk (Str es) (Str ss))
               es ss eq_refl eq_refl Ht).
    rewrite (processMtpBuffer_chain EOL (RawResult.mk (Str es') (Str ss'))
               es' ss' eq_refl eq_refl Ht').
    repeat match goal with
           | |- context [matches ss' es' ?p] =>
               rewrite <- (matches_toLowerCase ss es ss' es' p Herror Hstderr)
           end.
    split; [reflexivity |].
    split_on_matches; do 2 eexists; repeat split.
  - assert (Ht' : truthy es' || truthy ss' = false) by now rewrite <- Te, <- Ts.
    apply both_empty_truthy in Ht as [-> ->].
    apply both_empty_truthy in Ht' as [-> ->].
    split; [reflexivity |]. do 2 eexists; repeat split.
Qed.

Lemma classification_ignores_case_witness :
  let es := "EACCES: PERMISSION DENIED, unlink '/A'" in
  let es' := "eacces: permission denied, UNLINK '/a'" in
  toLowerCase es = toLowerCase es' /\
  outcome (processLocalBuffer LF (RawResult.mk (Str es) (Str EmptyString))) =
  outcome (processLocalBuffer LF (RawResult.mk (Str es') (Str EmptyString))).
Proof.
  intros es es'. split; [reflexivity |].
  exact (proj1 (classification_ignores_case LF es EmptyString es' EmptyString
                  eq_refl eq_refl)).
Defined.

(* ================================================================= *)
(** ** Where the [error] of a result comes from *)



(* ================================================================= *)
(** ** Properties of [deleteFiles] *)

Module LocalDataSourceFacts.
Import LocalDataSource.

Section Facts.

Variable World : Type.
Variable rimraf : string -> World -> World * rimrafOutcome.

Lemma deleteFiles_from_data (items : list string) (w : World) :
  Response.data (snd (deleteFiles_from World rimraf items w)) <> None.
Proof.
  revert w; induction items as [|item rest IH]; intros w; cbn; [discriminate |].
  unfold _delete. destruct (rimraf item w) as [w' [error | e]]; cbn.
  - destruct (fieldTruthy error); [| apply IH].
    destruct (template error); cbn; discriminate.
  - discriminate.
Qed.

Lemma deleteFiles_nonempty (items : list string) (w : World) :
  items <> [] ->
  deleteFiles World rimraf (Some items) w = deleteFiles_from World rimraf items w.
Proof. destruct items; [contradiction | reflexivity]. Qed.

Lemma deleteFiles_from_failed
    (items more : list string) (w w' : World) (log : list logCall)
    (r : Response.t) :
  deleteFiles_from World rimraf items w = (w', log, r) ->
  Response.data r = Some false ->
  deleteFiles_from World rimraf (items ++ more)%list w = (w', log, r).
Proof.
  revert w; induction items as [|item rest IH]; intros w; cbn.
  - intros H; injection H as <- <- <-. discriminate.
  - unfold _delete. destruct (rimraf item w) as [w1 [error | e]]; cbn.
    + destruct (fieldTruthy error); [| apply IH].
      destruct (template error); intros H _; exact H.
    + intros H _; exact H.
Qed.

Lemma deleteFiles_from_succeeded
    (items more : list string) (w w' : World) (log : list logCall)
    (r : Response.t) :
  deleteFiles_from World rimraf items w = (w', log, r) ->
  Response.data r = Some true ->
  log = [] /\ Response.error r = Value Null /\
  deleteFiles_from World rimraf (items ++ more)%list w
  = deleteFiles_from World rimraf more w'.
Proof.
  revert w; induction items as [|item rest IH]; intros w; cbn.
  - intros H; injection H as <- <- <-. auto.
  - unfold _delete. destruct (rimraf item w) as [w1 [error | e]]; cbn.
    + destruct (fieldTruthy error); [| apply IH].
      destruct (template error); intros H; injection H as <- <- <-;
        discriminate.
    + intros H; injection H as <- <- <-; discriminate.
Qed.

End Facts.

(** X11. [deleteFiles] answers [data: null] exactly when no file was given
    ([fileList] missing or empty); it then reports "No files selected."
    without calling [rimraf] or writing to the log. *)
Theorem deleteFiles_nothing_selected
    (World : Type) (rimraf : string -> World -> World * rimrafOutcome)
    (fileList : option (list string)) (w : World) :
  (Response.data (snd (deleteFiles World rimraf fileList w)) = None <->
   fileList = None \/ fileList = Some []) /\
  (fileList = None \/ fileList = Some [] ->
   deleteFiles World rimraf fileList w =
   (w, [], Response.mk (Value (Str "No files selected.")) Null None)).
Proof.
  split.
  - split.
    + destruct fileList as [[|item rest]|]; auto.
      intros H. now apply deleteFiles_from_data in H.
    + intros [-> | ->]; reflexivity.
  - intros [-> | ->]; reflexivity.
Qed.

Lemma deleteFiles_nothing_selected_witness :
  deleteFiles (list string) rimraf_demo (Some []) ["/old"] =
  (["/old"], [], Response.mk (Value (Str "No files selected.")) Null None).
Proof.
  apply (deleteFiles_nothing_selected (list string) rimraf_demo (Some [])
           ["/old"]).
  right; reflexivity.
Defined.

(** X12. [deleteFiles] stops at the first file that cannot be removed:
    once a list ends in [data: false], the files that follow it in a longer
    list are never handed to [rimraf], and the result is the same. *)
Theorem deleteFiles_fail_fast
    (World : Type) (rimraf : string -> World -> World * rimrafOutcome)
    (items more : list string) (w w' : World) (log : list logCall)
    (r : Response.t)
    (Hrun : deleteFiles World rimraf (Some items) w = (w', log, r))
    (Hfailed : Response.data r = Some false) :
  deleteFiles World rimraf (Some (items ++ more)%list) w = (w', log, r) /\
  exists entry, log = [entry].
Proof.
  destruct items as [|item rest].
  - cbn in Hrun. injection Hrun as <- <- <-. discriminate.
  - rewrite deleteFiles_nonempty in Hrun by discriminate.
    split.
    + rewrite deleteFiles_nonempty by discriminate.
      now apply deleteFiles_from_failed.
    + clear more. revert w Hrun. generalize (item :: rest) as l.
      induction l as [|x l IH]; intros w; cbn.
      * intros H; injection H as <- <- <-. discriminate.
      * unfold _delete. destruct (rimraf x w) as [w1 [error | e]]; cbn.
        -- destruct (fieldTruthy error); [| apply IH].
           destruct (template error); intros H; injection H as <- <- <-; eauto.
        -- intros H; injection H as <- <- <-; eauto.
Qed.

Lemma deleteFiles_fail_fast_witness :
  deleteFiles (list string) rimraf_demo (Some ["/a"; "/locked"; "/b"; "/c"]) [] =
  (["/a"],
   [LogErrorAt "Error: EPERM: operation not permitted"
      "FileExplorerLocalDataSource.deleteFiles -> rm error"],
   Response.mk (Value (ErrorObj (Normal "Error: EPERM: operation not permitted")))
               Null (Some false)).
Proof.
  exact (proj1 (deleteFiles_fail_fast (list string) rimraf_demo
                  ["/a"; "/locked"] ["/b"; "/c"] [] _ _ _ eq_refl eq_refl)).
Defined.

(** X13. When [deleteFiles] answers [data: true] the [error] is [null] and
    nothing was logged, and deleting a longer list continues from the file
    system the first part left behind. *)
Theorem deleteFiles_success_composes
    (World : Type) (rimraf : string -> World -> World * rimrafOutcome)
    (items more : list string) (w w' : World) (log : list logCall)
    (r : Response.t)
    (Hrun : deleteFiles World rimraf (Some items) w = (w', log, r))
    (Hdone : Response.data r = Some true)
    (Hmore : more <> []) :
  log = [] /\ Response.error r = Value Null /\
  deleteFiles World rimraf (Some (items ++ more)%list) w
  = deleteFiles World rimraf (Some more) w'.
Proof.
  destruct items as [|item rest].
  - cbn in Hrun. injection Hrun as <- <- <-. discriminate.
  - rewrite deleteFiles_nonempty in Hrun by discriminate.
    rewrite !deleteFiles_nonempty by (try assumption; discriminate).
    now apply deleteFiles_from_succeeded with (r := r).
Qed.

Lemma deleteFiles_success_composes_witness :
  deleteFiles (list string) rimraf_demo (Some ["/a"; "/b"; "/c"]) [] =
  deleteFiles (list string) rimraf_demo (Some ["/c"]) ["/b"; "/a"].
Proof.
  refine (proj2 (proj2 (deleteFiles_success_composes (list string) rimraf_demo
                          ["/a"; "/b"] ["/c"] [] _ _ _ eq_refl eq_refl _))).
  discriminate.
Defined.

End LocalDataSourceFacts.

(* ================================================================= *)
(** ** Properties of the settings reducer *)

Module SettingsReducerFacts.
Import SettingsReducer.

Section Facts.

Variable number : Type.
Variable numberToString : number -> string.
Variable zero : number.
Variable actionTypes : ActionTypes.
Variable DEVICE_TYPE_local DEVICE_TYPE_mtp : string.
Variable FILE_EXPLORER_VIEW_TYPE_grid APP_THEME_MODE_TYPE_auto : value number.

Lemma getOwn_app (a b : list (string * value number)) (name : string) :
  getOwn (a ++ b)%list name =
  match getOwn b name with
  | Some v => Some v
  | None => getOwn a name
  end.
Proof.
  induction a as [|[k v] a IH]; cbn.
  - now destruct (getOwn b name).
  - rewrite IH. now destruct (getOwn b name).
Qed.

Lemma own_withProp_same (state : value number) (key : string) (v : value number) :
  own (withProp state key v) key = Some v.
Proof.
  unfold own, withProp. cbn [ownProps]. rewrite getOwn_app. cbn.
  now rewrite String.eqb_refl.
Qed.

Lemma own_withProp_other
    (state : value number) (key name : string) (v : value number) :
  name <> key -> own (withProp state key v) name = own state name.
Proof.
  intros H. unfold own, withProp. cbn [ownProps]. rewrite getOwn_app. cbn.
  apply not_eq_sym in H. apply String.eqb_neq in H. now rewrite H.
Qed.

Lemma own_spread (a b : value number) (name : string) :
  own (VObj (ownProps a ++ ownProps b)%list) name =
  match own b name with
  | Some v => Some v
  | None => own a name
  end.
Proof. unfold own. cbn [ownProps]. apply getOwn_app. Qed.

(** Settles the [switch] of the reducer from the action type at hand. *)
Ltac dispatch Hd Ht :=
  unfold distinct in Hd;
  repeat (apply NoDup_cons_iff in Hd; destruct Hd as [? Hd]);
  unfold SettingsReducer.Settings; cbv zeta; rewrite ?Ht;
  repeat match goal with
         | |- context [String.eqb ?a ?b] =>
             first [ rewrite (String.eqb_refl a)
                   | rewrite (proj2 (String.eqb_neq a b))
                       by (intros E; rewrite ?E, <- ?E in *; cbn in *; tauto) ]
         end.

Let Settings :=
  Settings number numberToString zero actionTypes
    DEVICE_TYPE_local DEVICE_TYPE_mtp
    FILE_EXPLORER_VIEW_TYPE_grid APP_THEME_MODE_TYPE_auto.
Let initialState :=
  initialState number zero DEVICE_TYPE_local DEVICE_TYPE_mtp
    FILE_EXPLORER_VIEW_TYPE_grid APP_THEME_MODE_TYPE_auto.
Let toPropertyKey := toPropertyKey number numberToString.

(** X14. An action whose type is none of the seven the reducer knows
    leaves the state as it is (the initial state when there was none), and
    never throws. *)
Theorem Settings_unknown_action
    (state : value number) (a : action number)
    (Hunknown : ~ In (type a)
                  [FRESH_INSTALL actionTypes; SET_ONBOARDING actionTypes;
                   TOGGLE_SETTINGS actionTypes; HIDE_HIDDEN_FILES actionTypes;
                   FILE_EXPLORER_LISTING_TYPE actionTypes;
                   COMMON_SETTINGS actionTypes;
                   COPY_JSON_FILE_TO_SETTINGS actionTypes]) :
  Settings state a = Normal (orDefault state initialState).
Proof.
  unfold Settings, SettingsReducer.Settings.
  repeat match goal with
         | |- context [String.eqb ?a ?b] =>
             rewrite (proj2 (String.eqb_neq a b))
               by (intros E; apply Hunknown; rewrite E; cbn; tauto)
         end.
  reflexivity.
Qed.

(** X15. FRESH_INSTALL and TOGGLE_SETTINGS set one property of the state,
    [freshInstall] or [toggleSettings], to the payload and leave every
    other property as it was. *)
Theorem Settings_sets_one_property
    (state : value number) (a : action number)
    (Hd : distinct actionTypes)
    (Htype : type a = FRESH_INSTALL actionTypes \/
             type a = TOGGLE_SETTINGS actionTypes) :
  let name := if String.eqb (type a) (FRESH_INSTALL actionTypes)
              then "freshInstall" else "toggleSettings" in
  exists r,
    Settings state a = Normal r /\
    own r name = Some (payload a) /\
    forall other, other <> name ->
      own r other = own (orDefault state initialState) other.
Proof.
  unfold Settings, initialState. destruct Htype as [Ht | Ht]; dispatch Hd Ht;
    eexists; (split; [reflexivity |]);
    (split; [apply own_withProp_same | intros; now apply own_withProp_other]).
Qed.

(** X16. HIDE_HIDDEN_FILES and FILE_EXPLORER_LISTING_TYPE set, inside the
    object [hideHiddenFiles] or [fileExplorerListingType] of the state, the
    entry named by the device type to the payload; the entries of the other
    device types and every other property of the state stay as they were. *)
Theorem Settings_sets_one_device
    (state : value number) (a : action number) (devices : value number)
    (key : string)
    (Hd : distinct actionTypes)
    (Htype : type a = HIDE_HIDDEN_FILES actionTypes \/
             type a = FILE_EXPLORER_LISTING_TYPE actionTypes) :
  let name := if String.eqb (type a) (HIDE_HIDDEN_FILES actionTypes)
              then "hideHiddenFiles" else "fileExplorerListingType" in
  member (orDefault state initialState) name = Normal devices ->
  toPropertyKey (orDefault (deviceType a) VNull) = Normal key ->
  exists r devices',
    Settings state a = Normal r /\
    own r name = Some devices' /\
    own devices' key = Some (payload a) /\
    (forall device, device <> key -> own devices' device = own devices device) /\
    (forall other, other <> name ->
       own r other = own (orDefault state initialState) other).
Proof.
  unfold Settings, toPropertyKey, initialState.
  destruct Htype as [Ht | Ht]; dispatch Hd Ht; cbv zeta;
    intros -> ->; cbn [andThen]; do 2 eexists;
    (split; [reflexivity |]);
    (split; [apply own_withProp_same |]);
    (split; [apply own_withProp_same |]);
    (split; intros; now apply own_withProp_other).
Qed.

(** X17. A HIDE_HIDDEN_FILES or FILE_EXPLORER_LISTING_TYPE action without
    a device type writes its payload under the name "null": the entries of
    all device types, "null" apart, are untouched. *)
Theorem Settings_missing_device_type
    (state : value number) (a : action number) (devices : value number)
    (Hd : distinct actionTypes)
    (Htype : type a = HIDE_HIDDEN_FILES actionTypes \/
             type a = FILE_EXPLORER_LISTING_TYPE actionTypes)
    (Hmissing : deviceType a = VUndefined) :
  let name := if String.eqb (type a) (HIDE_HIDDEN_FILES actionTypes)
              then "hideHiddenFiles" else "fileExplorerListingType" in
  member (orDefault state initialState) name = Normal devices ->
  exists r devices',
    Settings state a = Normal r /\
    own r name = Some devices' /\
    own devices' "null" = Some (payload a) /\
    (forall device, device <> "null" ->
       own devices' device = own devices device).
Proof.
  unfold Settings, initialState.
  destruct Htype as [Ht | Ht]; dispatch Hd Ht; rewrite Hmissing; cbv zeta;
    intros ->; cbn [andThen orDefault SettingsReducer.toPropertyKey];
    do 2 eexists;
    (split; [reflexivity |]);
    (split; [apply own_withProp_same |]);
    (split; [apply own_withProp_same | intros; now apply own_withProp_other]).
Qed.

(** X18. COMMON_SETTINGS sets the property the payload names in [key] to
    the payload's [value] and leaves every other property as it was. *)
Theorem Settings_common_settings
    (state : value number) (a : action number) (k : value number)
    (key : string)
    (Hd : distinct actionTypes)
    (Htype : type a = COMMON_SETTINGS actionTypes)
    (Hkey : member (payload a) "key" = Normal k)
    (Hname : toPropertyKey k = Normal key) :
  exists r v,
    Settings state a = Normal r /\
    member (payload a) "value" = Normal v /\
    own r key = Some v /\
    forall other, other <> key ->
      own r other = own (orDefault state initialState) other.
Proof.
  unfold Settings, toPropertyKey, initialState in *. dispatch Hd Htype.
  cbv zeta. rewrite Hkey. cbn [andThen]. rewrite Hname. cbn [andThen].
  destruct (member (payload a) "value") as [v | e] eqn:Hv.
  - cbn [andThen]. exists (withProp (orDefault state
      (SettingsReducer.initialState number zero DEVICE_TYPE_local
         DEVICE_TYPE_mtp FILE_EXPLORER_VIEW_TYPE_grid
         APP_THEME_MODE_TYPE_auto)) key v), v.
    split; [reflexivity |]. split; [reflexivity |].
    split; [apply own_withProp_same | intros; now apply own_withProp_other].
  - destruct (payload a); discriminate.
Qed.

(** X19. A COMMON_SETTINGS action whose payload is [null] or missing makes
    the reducer throw a [TypeError]; no state is returned. *)
Theorem Settings_common_settings_without_payload
    (state : value number) (a : action number)
    (Hd : distinct actionTypes)
    (Htype : type a = COMMON_SETTINGS actionTypes)
    (Hpayload : payload a = VNull \/ payload a = VUndefined) :
  Settings state a = Throw TypeError.
Proof.
  unfold Settings. dispatch Hd Htype. cbv zeta.
  destruct Hpayload as [-> | ->]; reflexivity.
Qed.

(** X20. COPY_JSON_FILE_TO_SETTINGS merges the payload over the state: a
    property the payload has takes the payload's value, any other keeps
    the state's. *)
Theorem Settings_copy_json
    (state : value number) (a : action number)
    (Hd : distinct actionTypes)
    (Htype : type a = COPY_JSON_FILE_TO_SETTINGS actionTypes) :
  exists r,
    Settings state a = Normal r /\
    forall name,
      own r name =
      match own (payload a) name with
      | Some v => Some v
      | None => own (orDefault state initialState) name
      end.
Proof.
  unfold Settings, initialState. dispatch Hd Htype. cbv zeta.
  eexists; split; [reflexivity |]. intros name. apply own_spread.
Qed.

(** X21. SET_ONBOARDING merges the payload over the [onboarding] object of
    the state and leaves every other property of the state as it was. *)
Theorem Settings_set_onboarding
    (state : value number) (a : action number) (onboarding : value number)
    (Hd : distinct actionTypes)
    (Htype : type a = SET_ONBOARDING actionTypes)
    (Hold : member (orDefault state initialState) "onboarding"
            = Normal onboarding) :
  exists r onboarding',
    Settings state a = Normal r /\
    own r "onboarding" = Some onboarding' /\
    (forall name,
       own onboarding' name =
       match own (payload a) name with
       | Some v => Some v
       | None => own onboarding name
       end) /\
    (forall other, other <> "onboarding" ->
       own r other = own (orDefault state initialState) other).
Proof.
  unfold Settings, initialState in *. dispatch Hd Htype. cbv zeta.
  rewrite Hold. cbn [andThen].
  do 2 eexists. split; [reflexivity |].
  split; [apply own_withProp_same |].
  split; [intros name; apply own_spread
         | intros; now apply own_withProp_other].
Qed.

End Facts.

Lemma demoTypes_distinct : distinct demoTypes.
Proof. repeat constructor; cbn; intuition discriminate. Qed.

Lemma Settings_unknown_action_witness :
  demoSettings VUndefined (Build_action "@@redux/INIT" VUndefined VUndefined) =
  Normal demoInitialState.
Proof.
  apply (Settings_unknown_action nat indexName 0 demoTypes "local" "mtp"
           (VStr "grid") (VStr "auto") VUndefined).
  cbn. intuition discriminate.
Defined.

Lemma Settings_sets_one_property_witness :
  exists r,
    demoSettings VUndefined
      (Build_action "TOGGLE_SETTINGS" (VBool true) VUndefined) = Normal r /\
    own r "toggleSettings" = Some (VBool true) /\
    own r "enableAnalytics" = Some (VBool true).
Proof.
  destruct (Settings_sets_one_property nat indexName 0 demoTypes "local" "mtp"
              (VStr "grid") (VStr "auto") VUndefined
              (Build_action "TOGGLE_SETTINGS" (VBool true) VUndefined)
              demoTypes_distinct (or_intror eq_refl))
    as [r [Hr [Hset Hframe]]].
  exists r. split; [exact Hr |]. split; [exact Hset |].
  rewrite (Hframe "enableAnalytics"); [reflexivity | discriminate].
Defined.

Lemma Settings_sets_one_device_witness :
  exists r devices,
    demoSettings VUndefined
      (Build_action "HIDE_HIDDEN_FILES" (VBool false) (VStr "mtp")) = Normal r /\
    own r "hideHiddenFiles" = Some devices /\
    own devices "mtp" = Some (VBool false) /\
    own devices "local" = Some (VBool true).
Proof.
  destruct (Settings_sets_one_device nat indexName 0 demoTypes "local" "mtp"
              (VStr "grid") (VStr "auto") VUndefined
              (Build_action "HIDE_HIDDEN_FILES" (VBool false) (VStr "mtp"))
              (VObj [("local", VBool true); ("mtp", VBool true)]) "mtp"
              demoTypes_distinct (or_introl eq_refl) eq_refl eq_refl)
    as [r [devices [Hr [Hd [Hset [Hframe _]]]]]].
  exists r, devices. repeat split; try assumption.
  rewrite (Hframe "local"); [reflexivity | discriminate].
Defined.

Lemma Settings_missing_device_type_witness :
  exists r devices,
    demoSettings VUndefined
      (Build_action "HIDE_HIDDEN_FILES" (VBool false) VUndefined) = Normal r /\
    own r "hideHiddenFiles" = Some devices /\
    own devices "null" = Some (VBool false) /\
    own devices "local" = Some (VBool true) /\
    own devices "mtp" = Some (VBool true).
Proof.
  destruct (Settings_missing_device_type nat indexName 0 demoTypes "local" "mtp"
              (VStr "grid") (VStr "auto") VUndefined
              (Build_action "HIDE_HIDDEN_FILES" (VBool false) VUndefined)
              (VObj [("local", VBool true); ("mtp", VBool true)])
              demoTypes_distinct (or_introl eq_refl) eq_refl eq_refl)
    as [r [devices [Hr [Hd [Hset Hframe]]]]].
  exists r, devices. repeat split; try assumption.
  - rewrite (Hframe "local"); [reflexivity | discriminate].
  - rewrite (Hframe "mtp"); [reflexivity | discriminate].
Defined.

Lemma Settings_common_settings_witness :
  exists r,
    demoSettings VUndefined
      (Build_action "COMMON_SETTINGS"
         (VObj [("key", VStr "enableAnalytics"); ("value", VBool false)])
         VUndefined) = Normal r /\
    own r "enableAnalytics" = Some (VBool false) /\
    own r "enableStatusBar" = Some (VBool true).
Proof.
  destruct (Settings_common_settings nat indexName 0 demoTypes "local" "mtp"
              (VStr "grid") (VStr "auto") VUndefined
              (Build_action "COMMON_SETTINGS"
                 (VObj [("key", VStr "enableAnalytics"); ("value", VBool false)])
                 VUndefined)
              (VStr "enableAnalytics") "enableAnalytics"
              demoTypes_distinct eq_refl eq_refl eq_refl)
    as [r [v [Hr [Hv [Hset Hframe]]]]].
  exists r. split; [exact Hr |]. injection Hv as <-. split; [exact Hset |].
  rewrite (Hframe "enableStatusBar"); [reflexivity | discriminate].
Defined.

Lemma Settings_common_settings_without_payload_witness :
  demoSettings demoInitialState
    (Build_action "COMMON_SETTINGS" VUndefined VUndefined) = Throw TypeError.
Proof.
  exact (Settings_common_settings_without_payload nat indexName 0 demoTypes
           "local" "mtp" (VStr "grid") (VStr "auto") demoInitialState
           (Build_action "COMMON_SETTINGS" VUndefined VUndefined)
           demoTypes_distinct eq_refl (or_intror eq_refl)).
Defined.

Lemma Settings_copy_json_witness :
  exists r,
    demoSettings VUndefined
      (Build_action "COPY_JSON_FILE_TO_SETTINGS"
         (VObj [("enableAnalytics", VBool false); ("showLocalPane", VBool false)])
         VUndefined) = Normal r /\
    own r "enableAnalytics" = Some (VBool false) /\
    own r "enableStatusBar" = Some (VBool true).
Proof.
  destruct (Settings_copy_json nat indexName 0 demoTypes "local" "mtp"
              (VStr "grid") (VStr "auto") VUndefined
              (Build_action "COPY_JSON_FILE_TO_SETTINGS"
                 (VObj [("enableAnalytics", VBool false);
                        ("showLocalPane", VBool false)])
                 VUndefined)
              demoTypes_distinct eq_refl)
    as [r [Hr Hown]].
  exists r. split; [exact Hr |].
  split; [exact (Hown "enableAnalytics") | exact (Hown "enableStatusBar")].
Defined.

Lemma Settings_set_onboarding_witness :
  exists r onboarding,
    demoSettings VUndefined
      (Build_action "SET_ONBOARDING"
         (VObj [("lastFiredVersion", VStr "3.0")]) VUndefined) = Normal r /\
    own r "onboarding" = Some onboarding /\
    own onboarding "lastFiredVersion" = Some (VStr "3.0") /\
    own r "freshInstall" = Some (VNum 0).
Proof.
  destruct (Settings_set_onboarding nat indexName 0 demoTypes "local" "mtp"
              (VStr "grid") (VStr "auto") VUndefined
              (Build_action "SET_ONBOARDING"
                 (VObj [("lastFiredVersion", VStr "3.0")]) VUndefined)
              (VObj [("lastFiredVersion", VNull)])
              demoTypes_distinct eq_refl eq_refl)
    as [r [onboarding [Hr [Ho [Hmerge Hframe]]]]].
  exists r, onboarding. split; [exact Hr |]. split; [exact Ho |].
  split; [exact (Hmerge "lastFiredVersion") |].
  rewrite (Hframe "freshInstall"); [reflexivity | discriminate].
Defined.

End SettingsReducerFacts.
